(** * Afisha movie calendar: a shallow embedding of [scraper.py]

    The development follows the script function by function: text primitives
    ([str.strip], [in], [re.findall], [datetime.strptime], [int]), calendar
    dates, the rate-limited fetcher [get_soup], the listing extractor
    [extract_movie_data_from_schedule], the pagination controller
    [parse_all_schedule_pages], the detail enricher, the event materializer
    [create_calendar_event] and the orchestrator [main].

    Conventions.
    - A Python [str] is the list of its code points ([pystr]); [len] is
      [length], [+] is [++].  Literals are written as UTF-8 Rocq strings and
      decoded by [u].
    - The HTML library is consumed through the interface [HtmlQuery]; the
      network, the wall clock and the output file are an explicit world
      threaded through a state-and-exception monad.
    - Waiting is recorded, not performed: the trace of a run lists every
      request and every [time.sleep], so "no further attempt" and "which
      waits" are statements about the trace.  The clock is read as a
      function of the trace.
    - Exceptions are those of class [Exception]; writing the output file
      succeeds; date arithmetic is not capped at year 9999.  Logging is
      left out.
    - [time.sleep] raises [ValueError] on a negative argument, and so does
      [sleep].  The random part of [smart_delay] is not drawn: the wait is
      recorded with its base, and it succeeds, as [time.sleep] does whenever
      the base is not negative; the statements that a fetch returns carry
      the hypothesis that [BASE_DELAY] is not negative.
    - [urljoin] is a function of the two strings: an [href] on which
      [urllib.parse.urljoin] raises is outside the development. *)

From Stdlib Require Import NArith ZArith String Ascii DecimalString.
From stdpp Require Import gmap list sorting.

Local Open Scope N_scope.

(** ** Python strings *)

Definition pystr := list N.

(** UTF-8 decoding of a Rocq string literal into code points. *)
Fixpoint utf8_decode (bs : list N) : pystr :=
  match bs with
  | [] => []
  | b0 :: r0 =>
      if b0 <? 128 then b0 :: utf8_decode r0
      else match r0 with
           | [] => [b0]
           | b1 :: r1 =>
               if b0 <? 224 then ((b0 - 192) * 64 + (b1 - 128)) :: utf8_decode r1
               else match r1 with
                    | [] => [b0; b1]
                    | b2 :: r2 =>
                        if b0 <? 240
                        then ((b0 - 224) * 4096 + (b1 - 128) * 64 + (b2 - 128)) :: utf8_decode r2
                        else match r2 with
                             | [] => [b0; b1; b2]
                             | b3 :: r3 =>
                                 ((b0 - 240) * 262144 + (b1 - 128) * 4096
                                  + (b2 - 128) * 64 + (b3 - 128)) :: utf8_decode r3
                             end
                    end
           end
  end.

Definition u (s : string) : pystr :=
  utf8_decode (map N_of_ascii (list_ascii_of_string s)).

(** [str.isspace] on one code point: the characters [str.strip()] removes. *)
Definition py_isspace (c : N) : bool :=
  ((9 <=? c) && (c <=? 13)) || ((28 <=? c) && (c <=? 32))
  || (c =? 133) || (c =? 160) || (c =? 5760)
  || ((8192 <=? c) && (c <=? 8202))
  || (c =? 8232) || (c =? 8233) || (c =? 8239) || (c =? 8287) || (c =? 12288).

Fixpoint lstrip (s : pystr) : pystr :=
  match s with
  | [] => []
  | c :: r => if py_isspace c then lstrip r else s
  end.

Definition rstrip (s : pystr) : pystr := rev (lstrip (rev s)).

(** [s.strip()] *)
Definition strip (s : pystr) : pystr := rstrip (lstrip s).

(** [s.startswith(p)] *)
Fixpoint startswith (p s : pystr) : bool :=
  match p, s with
  | [], _ => true
  | _ :: _, [] => false
  | a :: p', b :: s' => (a =? b) && startswith p' s'
  end.

(** [needle in hay] on strings *)
Fixpoint str_in (needle hay : pystr) : bool :=
  startswith needle hay ||
  match hay with
  | [] => false
  | _ :: r => str_in needle r
  end.

(** [s.replace('.', ':')] *)
Definition replace_dot_colon (s : pystr) : pystr :=
  map (fun c => if c =? 46 then 58 else c) s.

(** [sep.join(parts)] *)
Fixpoint join (sep : pystr) (parts : list pystr) : pystr :=
  match parts with
  | [] => []
  | [p] => p
  | p :: rest => p ++ sep ++ join sep rest
  end.

(** [x in l] for a list of strings *)
Definition str_mem (x : pystr) (l : list pystr) : bool := bool_decide (x ∈ l).

(** String comparison [a < b]: lexicographic on code points, a proper prefix
    is smaller. *)
Fixpoint str_lt (a b : pystr) : bool :=
  match a, b with
  | _, [] => false
  | [], _ :: _ => true
  | x :: a', y :: b' => (x <? y) || ((x =? y) && str_lt a' b')
  end.

(** ** Decimal digits

    [\d] in a [str] pattern and [int()] accept every Unicode decimal digit.
    These come in blocks of ten consecutive code points; [nd_zeros] lists the
    code point of the zero of each block other than ASCII.  Below 128 the
    only digits are [0] to [9]. *)

Section Digits.

Variable nd_zeros : list N.

Definition digit_value (c : N) : option N :=
  if (48 <=? c) && (c <=? 57) then Some (c - 48)
  else if c <? 128 then None
  else match find (fun z => (z <=? c) && (c <? z + 10)) nd_zeros with
       | Some z => Some (c - z)
       | None => None
       end.

Definition is_digit (c : N) : bool :=
  match digit_value c with Some _ => true | None => false end.

(** *** The three time-shaped patterns *)

Inductive time_pattern :=
| PatColonOrDot   (* (\d{1,2}[:.:]\d{2}) *)
| PatColon        (* (\d{1,2}:\d{2})     *)
| PatDot.         (* (\d{1,2}\.\d{2})    *)

Definition is_sep (p : time_pattern) (c : N) : bool :=
  match p with
  | PatColonOrDot => (c =? 58) || (c =? 46)
  | PatColon => c =? 58
  | PatDot => c =? 46
  end.

(** One match attempt at the head of [s]: the greedy [\d{1,2}] takes two
    digits first and gives one back when the rest does not follow. *)
Definition match_time (p : time_pattern) (s : pystr) : option pystr :=
  let two :=
    match s with
    | d1 :: d2 :: c :: d3 :: d4 :: _ =>
        if is_digit d1 && is_digit d2 && is_sep p c && is_digit d3 && is_digit d4
        then Some [d1; d2; c; d3; d4] else None
    | _ => None
    end in
  let one :=
    match s with
    | d1 :: c :: d3 :: d4 :: _ =>
        if is_digit d1 && is_sep p c && is_digit d3 && is_digit d4
        then Some [d1; c; d3; d4] else None
    | _ => None
    end in
  match two with Some m => Some m | None => one end.

(** [re.findall(p, s)]: leftmost non-overlapping matches; [skip] counts the
    characters of the previous match still to be passed over. *)
Fixpoint findall_from (p : time_pattern) (skip : nat) (s : pystr) : list pystr :=
  match s with
  | [] => []
  | _ :: r =>
      match skip with
      | S k => findall_from p k r
      | O =>
          match match_time p s with
          | Some m => m :: findall_from p (Nat.pred (length m)) r
          | None => findall_from p 0 r
          end
      end
  end.

Definition re_findall (p : time_pattern) (s : pystr) : list pystr :=
  findall_from p 0 s.

(** [re.search(p, s)]: the leftmost match, [None] when there is none. *)
Fixpoint re_search (p : time_pattern) (s : pystr) : option pystr :=
  match s with
  | [] => None
  | _ :: r =>
      match match_time p s with
      | Some m => Some m
      | None => re_search p r
      end
  end.

(** *** [datetime.strptime(s, '%H:%M')]

    The format compiles to [(?P<H>2[0-3]|[0-1]\d|\d):(?P<M>[0-5]\d|\d)]; the
    alternatives are tried in order, the first overall match is taken, and a
    match that leaves text unread is a [ValueError]. *)

Definition hour_alternatives (s : pystr) : list (N * pystr) :=
  (match s with
   | a :: c :: r =>
       if (a =? 50) && (48 <=? c) && (c <=? 51) then [(20 + (c - 48), r)] else []
   | _ => []
   end) ++
  (match s with
   | a :: c :: r =>
       if (48 <=? a) && (a <=? 49)
       then match digit_value c with Some v => [(10 * (a - 48) + v, r)] | None => [] end
       else []
   | _ => []
   end) ++
  (match s with
   | c :: r => match digit_value c with Some v => [(v, r)] | None => [] end
   | _ => []
   end).

Definition minute_alternatives (s : pystr) : list (N * pystr) :=
  (match s with
   | a :: c :: r =>
       if (48 <=? a) && (a <=? 53)
       then match digit_value c with Some v => [(10 * (a - 48) + v, r)] | None => [] end
       else []
   | _ => []
   end) ++
  (match s with
   | c :: r => match digit_value c with Some v => [(v, r)] | None => [] end
   | _ => []
   end).

Fixpoint first_some {A B : Type} (f : A -> option B) (l : list A) : option B :=
  match l with
  | [] => None
  | x :: r => match f x with Some y => Some y | None => first_some f r end
  end.

(** The regex match: hour, minute and the unread rest. *)
Definition match_hm (s : pystr) : option (N * N * pystr) :=
  first_some
    (fun '(h, r) =>
       match r with
       | c :: r' =>
           if c =? 58
           then match minute_alternatives r' with
                | (m, rest) :: _ => Some (h, m, rest)
                | [] => None
                end
           else None
       | [] => None
       end)
    (hour_alternatives s).

(** [Some (hour, minute)], or [None] for [ValueError]. *)
Definition strptime_hm (s : pystr) : option (N * N) :=
  match match_hm s with
  | Some (h, m, []) => Some (h, m)
  | _ => None
  end.

End Digits.

(** ** [int(s)] *)

Section IntParse.

Variable nd_zeros : list N.

(** Digits with single underscores between them. *)
Fixpoint int_digits (acc : N) (after_underscore : bool) (s : pystr) : option N :=
  match s with
  | [] => if after_underscore then None else Some acc
  | c :: r =>
      if c =? 95
      then (if after_underscore then None else int_digits acc true r)
      else match digit_value nd_zeros c with
           | Some v => int_digits (10 * acc + v) false r
           | None => None
           end
  end.

(** [Some n], or [None] for [ValueError]: surrounding white space, an
    optional sign, then decimal digits. *)
Definition py_int (s : pystr) : option Z :=
  let t := strip s in
  let '(negative, body) :=
    match t with
    | c :: r => if c =? 45 then (true, r) else if c =? 43 then (false, r) else (false, t)
    | [] => (false, t)
    end in
  match body with
  | [] => None
  | c :: _ =>
      if is_digit nd_zeros c
      then match int_digits 0 false body with
           | Some n => Some (if negative then (- Z.of_N n)%Z else Z.of_N n)
           | None => None
           end
      else None
  end.

End IntParse.

(** ** Calendar dates and times ([datetime.date], [datetime.datetime]) *)

Local Open Scope Z_scope.

Record date := mkdate { year : Z; month : Z; day : Z }.

Record datetime := mkdatetime {
  dt_date : date;
  dt_hour : Z;
  dt_minute : Z;
  dt_second : Z;
  dt_microsecond : Z
}.

Global Instance date_eq_dec : EqDecision date.
Proof. solve_decision. Defined.

Definition is_leap (y : Z) : bool :=
  (y mod 4 =? 0) && (negb (y mod 100 =? 0) || (y mod 400 =? 0)).

Definition days_in_month (y m : Z) : Z :=
  if m =? 2 then (if is_leap y then 29 else 28)
  else if (m =? 4) || (m =? 6) || (m =? 9) || (m =? 11) then 30
  else 31.

Definition valid_date (d : date) : Prop :=
  1 <= year d <= 9999 /\ 1 <= month d <= 12 /\ 1 <= day d <= days_in_month (year d) (month d).

(** [date(y, m, d)]: [None] stands for the [ValueError] of a field out of
    range. *)
Definition py_date (y m d : Z) : option date :=
  if (1 <=? y) && (y <=? 9999) && (1 <=? m) && (m <=? 12)
     && (1 <=? d) && (d <=? days_in_month y m)
  then Some (mkdate y m d) else None.

(** [a <= b] on dates compares year, month, day in that order. *)
Definition date_le (a b : date) : Prop :=
  year a < year b \/
  (year a = year b /\ (month a < month b \/ (month a = month b /\ day a <= day b))).

Global Instance date_le_dec : RelDecision date_le.
Proof. intros a b. unfold date_le. apply _. Defined.

(** [d + timedelta(days=1)] *)
Definition next_day (d : date) : date :=
  if day d <? days_in_month (year d) (month d) then mkdate (year d) (month d) (day d + 1)
  else if month d <? 12 then mkdate (year d) (month d + 1) 1
  else mkdate (year d + 1) 1 1.

(** [dt + timedelta(days=1)] *)
Definition plus_one_day (dt : datetime) : datetime :=
  mkdatetime (next_day (dt_date dt)) (dt_hour dt) (dt_minute dt) (dt_second dt)
             (dt_microsecond dt).

(** [dt + timedelta(hours=2)] *)
Definition plus_two_hours (dt : datetime) : datetime :=
  if dt_hour dt + 2 <? 24
  then mkdatetime (dt_date dt) (dt_hour dt + 2) (dt_minute dt) (dt_second dt)
                  (dt_microsecond dt)
  else mkdatetime (next_day (dt_date dt)) (dt_hour dt + 2 - 24) (dt_minute dt)
                  (dt_second dt) (dt_microsecond dt).

(** [datetime.combine(d, time(h, m))] *)
Definition combine (d : date) (h m : Z) : datetime := mkdatetime d h m 0 0.

(** [date.toordinal()]: day 1 is 0001-01-01. *)
Definition days_before_year (y : Z) : Z :=
  (y - 1) * 365 + (y - 1) / 4 - (y - 1) / 100 + (y - 1) / 400.

Definition days_before_month (y m : Z) : Z :=
  (if m <=? 1 then 0 else if m =? 2 then 31 else if m =? 3 then 59
   else if m =? 4 then 90 else if m =? 5 then 120 else if m =? 6 then 151
   else if m =? 7 then 181 else if m =? 8 then 212 else if m =? 9 then 243
   else if m =? 10 then 273 else if m =? 11 then 304 else 334)
  + (if (2 <? m) && is_leap y then 1 else 0).

Definition toordinal (d : date) : Z :=
  days_before_year (year d) + days_before_month (year d) (month d) + day d.

(** Microseconds since the start of day 0: the position of a [datetime] on
    the time line. *)
Definition timestamp (dt : datetime) : Z :=
  (((toordinal (dt_date dt) * 24 + dt_hour dt) * 60 + dt_minute dt) * 60
   + dt_second dt) * 1000000 + dt_microsecond dt.

Definition two_hours : Z := 2 * 3600 * 1000000.

(** Two decimal digits, zero padded ([%d], [%m], [%H], [%M]). *)
Definition fmt2 (n : Z) : pystr :=
  [Z.to_N (48 + (n / 10) mod 10); Z.to_N (48 + n mod 10)].

(** Four decimal digits ([%Y]). *)
Definition fmt4 (n : Z) : pystr :=
  [Z.to_N (48 + (n / 1000) mod 10); Z.to_N (48 + (n / 100) mod 10);
   Z.to_N (48 + (n / 10) mod 10); Z.to_N (48 + n mod 10)].

(** [d.strftime('%d.%m.%Y')] *)
Definition strftime_dmy (d : date) : pystr :=
  fmt2 (day d) ++ [46%N] ++ fmt2 (month d) ++ [46%N] ++ fmt4 (year d).

(** [dt.strftime('%d.%m.%Y %H:%M')] *)
Definition strftime_dmy_hm (dt : datetime) : pystr :=
  strftime_dmy (dt_date dt) ++ [32%N] ++ fmt2 (dt_hour dt) ++ [58%N] ++ fmt2 (dt_minute dt).

(** ** The HTML query capability (BeautifulSoup) *)

(** The CSS selectors the script uses. *)
Inductive selector :=
| ByClass (c : string)                    (* .c            *)
| ByTag (t : string)                      (* t             *)
| ByAttr (a : string)                     (* [a]           *)
| ByAttrIs (a : string) (v : pystr)       (* [a=v]         *)
| Descendant (s1 s2 : selector)           (* s1 s2         *)
| TagContains (t : string) (text : pystr) (* t:contains(v) *).

Class HtmlQuery (Element : Type) := {
  (** [tag.select(css)]: the matching descendants, in document order *)
  select : Element -> selector -> list Element;
  (** [tag.find_all('a', href=True)], each link with its [href] *)
  find_all_links : Element -> list (Element * pystr);
  (** [tag.find_all('a', class_=c)] *)
  find_all_a_class : Element -> string -> list Element;
  (** the text nodes below the element, in document order *)
  strings : Element -> list pystr;
  (** [tag.get(name)] *)
  get_attr : Element -> string -> option pystr
}.

Section Soup.

Context {Element : Type} `{HtmlQuery Element}.

(** [tag.select_one(css)] *)
Definition select_one (e : Element) (s : selector) : option Element :=
  head (select e s).

(** [tag.get_text()] *)
Definition get_text (e : Element) : pystr := concat (strings e).

(** [tag.get_text(strip=True)]: every text node is stripped, the empty ones
    are dropped, the rest is joined with no separator. *)
Definition get_text_strip (e : Element) : pystr :=
  concat (filter (fun s => s <> []) (map strip (strings e))).

(** [tag.find('a', href=True)] *)
Definition find_link (e : Element) : option (Element * pystr) :=
  head (find_all_links e).

End Soup.

(** ** Configuration: the module's globals after argument parsing *)

Record Config := mkConfig {
  MAX_MOVIES : option Z;
  MAX_PAGES : Z;
  BASE_DELAY : Z;
  EXCLUDE_COUNTRIES : list pystr;
  SKIP_DETAILS : bool
}.

Definition MAX_RETRIES : Z := 3.
Definition BACKOFF_FACTOR : Z := 3.
Definition RANDOM_DELAY : Z := 3.
Definition PAGE_DELAY : Z := 8.
Definition DETAIL_DELAY : Z := 12.

(** ** Calendar events ([ics.Event]) and movie records *)

Record Event := mkEvent {
  ev_name : pystr;
  ev_begin : datetime;
  ev_end : datetime;
  ev_description : pystr;
  ev_url : option pystr
}.

(** [cal.events]: every [Event] carries a fresh uid, so adding never merges
    two events; the calendar is the collection of the events added. *)
Definition Calendar := list Event.

Record Movie := mkMovie {
  title : pystr;
  url : option pystr;
  times : list pystr;
  countries : list pystr;
  nearest_show_date : option date
}.

(** ** The world: network, clock, sleeping, the output file *)

Inductive request_type := Default | Detail | Page | Retry.

(** What the process does to the outside, in order. *)
Inductive action :=
| Get (target : pystr)     (* session.get(url, timeout=45) *)
| Sleep (seconds : Z)      (* time.sleep(seconds) *)
| SleepJitter (base : Z).  (* time.sleep(base + random.uniform(1, RANDOM_DELAY)) *)

(** An exception that is not a [requests] exception. *)
Inductive exn := Error (message : pystr).

(** The outcome of one [session.get]; a response carries its body as
    [BeautifulSoup(resp.text, 'html.parser')] reads it. *)
Inductive response (Element : Type) :=
| Response (status_code : Z) (body : Element)
| RaiseTimeout                 (* requests.exceptions.Timeout *)
| RaiseRequestException        (* any other requests.exceptions.RequestException *)
| RaiseOther (e : exn).

Arguments Response {Element} status_code body.
Arguments RaiseTimeout {Element}.
Arguments RaiseRequestException {Element}.
Arguments RaiseOther {Element} e.

(** The environment answers a request and reads the clock as a function of
    everything the process has done so far. *)
Record Env (Element : Type) := mkEnv {
  session_get : list action -> pystr -> response Element;
  wall_clock : list action -> datetime
}.

Arguments session_get {Element} e history target.
Arguments wall_clock {Element} e history.

Record World := mkWorld {
  history : list action;
  calendar_ics : option Calendar   (* the file calendar.ics, [None] when absent *)
}.

Inductive outcome (A : Type) :=
| Return (a : A)
| Raise (e : exn).

Arguments Return {A} a.
Arguments Raise {A} e.

Definition M (A : Type) : Type := World -> outcome A * World.

Definition ret {A} (a : A) : M A := fun w => (Return a, w).

Definition raise {A} (e : exn) : M A := fun w => (Raise e, w).

Definition bind {A B} (m : M A) (k : A -> M B) : M B :=
  fun w =>
    match m w with
    | (Return a, w') => k a w'
    | (Raise e, w') => (Raise e, w')
    end.

(** [try: m except Exception as e: handler(e)] *)
Definition try_except {A} (m : M A) (handler : exn -> M A) : M A :=
  fun w =>
    match m w with
    | (Return a, w') => (Return a, w')
    | (Raise e, w') => handler e w'
    end.

Notation "x <- m ;; k" := (bind m (fun x => k))
  (at level 85, m at next level, right associativity).
Notation "m ;;; k" := (bind m (fun _ => k))
  (at level 85, right associativity).

Definition do (a : action) : M unit :=
  fun w => (Return tt, mkWorld (history w ++ [a]) (calendar_ics w)).

(** The [ValueError] of [time.sleep] with a negative argument. *)
Definition sleep_value_error : exn := Error (u "sleep length must be non-negative").

(** [time.sleep(seconds)] *)
Definition sleep (seconds : Z) : M unit :=
  if seconds <? 0 then raise sleep_value_error else do (Sleep seconds).

(** [with open('calendar.ics', 'w') as f: f.writelines(cal)] *)
Definition write_calendar (cal : Calendar) : M unit :=
  fun w => (Return tt, mkWorld (history w) (Some cal)).

Section Fetcher.

Context {Element : Type}.
Variable env : Env Element.
Variable cfg : Config.

(** [datetime.now()] *)
Definition datetime_now : M datetime :=
  fun w => (Return (wall_clock env (history w)), w).

(** [session.get(url, timeout=45)] *)
Definition http_get (target : pystr) : M (response Element) :=
  fun w => (Return (session_get env (history w) target),
            mkWorld (history w ++ [Get target]) (calendar_ics w)).

(** [delays.get(request_type, BASE_DELAY)] *)
Definition base_delay_of (rt : request_type) : Z :=
  match rt with
  | Default => BASE_DELAY cfg
  | Detail => DETAIL_DELAY
  | Page => PAGE_DELAY
  | Retry => BASE_DELAY cfg * 2
  end.

(** [time.sleep(base_delay + random.uniform(1, RANDOM_DELAY))]: the wait is
    recorded with its base; the draw is not modelled. *)
Definition smart_delay (rt : request_type) : M unit :=
  do (SleepJitter (base_delay_of rt)).

(** [resp.raise_for_status()] raises [HTTPError] (a [RequestException]) for
    the 4xx and 5xx codes. *)
Definition is_http_error (status : Z) : bool := (400 <=? status) && (status <? 600).

(** The [for attempt in range(1, retries + 1)] loop of [get_soup];
    [remaining] counts the iterations left, [None] is Python's [None]. *)
Fixpoint get_soup_loop (remaining : nat) (attempt retries delay : Z)
    (target : pystr) (rt : request_type) : M (option Element) :=
  match remaining with
  | O => ret None
  | S rest =>
      (if 1 <? attempt then smart_delay Retry else ret tt) ;;;
      resp <- http_get target ;;
      match resp with
      | Response status body =>
          if status =? 429 then
            sleep (delay * BACKOFF_FACTOR) ;;;
            get_soup_loop rest (attempt + 1) retries (delay * BACKOFF_FACTOR) target rt
          else if status =? 404 then ret None
          else if status =? 403 then
            sleep (delay * 2) ;;;
            get_soup_loop rest (attempt + 1) retries (delay * 2) target rt
          else if is_http_error status then
            (if attempt <? retries
             then sleep delay ;;;
                  get_soup_loop rest (attempt + 1) retries (delay * BACKOFF_FACTOR) target rt
             else ret None)
          else
            smart_delay rt ;;; ret (Some body)
      | RaiseTimeout =>
          if attempt <? retries
          then sleep delay ;;;
               get_soup_loop rest (attempt + 1) retries (delay * BACKOFF_FACTOR) target rt
          else get_soup_loop rest (attempt + 1) retries delay target rt
      | RaiseRequestException =>
          if attempt <? retries
          then sleep delay ;;;
               get_soup_loop rest (attempt + 1) retries (delay * BACKOFF_FACTOR) target rt
          else ret None
      | RaiseOther e => raise e
      end
  end.

Definition get_soup (target : pystr) (retries : Z) (rt : request_type) : M (option Element) :=
  get_soup_loop (Z.to_nat retries) 1 retries (BASE_DELAY cfg) target rt.

End Fetcher.

(** ** Listing extractor, detail parsers *)

(** [str(n)] for an integer *)
Definition str_of_Z (n : Z) : pystr := u (NilZero.string_of_int (Z.to_int n)).

Section Extraction.

Context {Element : Type} `{HtmlQuery Element}.
Variable nd_zeros : list N.
(** [urljoin(base, href)] of [urllib.parse] *)
Variable urljoin : pystr -> pystr -> pystr.
(** [str.lower] *)
Variable py_lower : pystr -> pystr.

Definition movie_selectors : list selector :=
  [ByClass "movie-item"; ByClass "film-item"; ByClass "schedule-item";
   ByAttr "data-movie"; ByClass "movie"; ByClass "film"; ByTag "article";
   ByClass "content-item"; ByClass "list-item"; ByClass "cinema-movie";
   ByClass "schedule-movie"; ByClass "event-item"; ByClass "item"].

Definition title_selectors : list selector :=
  [ByTag "h1"; ByTag "h2"; ByTag "h3"; ByClass "title"; ByClass "name";
   ByTag "a"; ByTag "strong"].

Definition site : pystr := u "https://www.afisha.ru".

(** The first selector with a match decides; [[]] when none has one. *)
Fixpoint first_matching (soup : Element) (sels : list selector) : list Element :=
  match sels with
  | [] => []
  | s :: rest =>
      match select soup s with
      | [] => first_matching soup rest
      | elements => elements
      end
  end.

(** [title and len(title) > 3] *)
Definition usable_title (t : pystr) : bool :=
  negb (Nat.eqb (length t) 0) && Nat.ltb 3 (length t).

(** The title loop over [title_selectors]: [title] is the variable of the
    same name ([None] at first), the [break] returns at once. *)
Fixpoint probe_title (element : Element) (sels : list selector)
    (title : option pystr) : option pystr :=
  match sels with
  | [] => title
  | sel :: rest =>
      match select_one element sel with
      | Some title_elem =>
          let t := get_text_strip title_elem in
          if usable_title t then Some t else probe_title element rest (Some t)
      | None => probe_title element rest title
      end
  end.

(** One step of the showtime loops: [m] is a regex match. *)
Definition add_time (times : list pystr) (m : pystr) : list pystr :=
  let time_str := replace_dot_colon m in
  match strptime_hm nd_zeros time_str with
  | Some _ => if str_mem time_str times then times else times ++ [time_str]
  | None => times
  end.

(** The showtimes of one listing container, from its full text. *)
Definition listing_times (element_text : pystr) : list pystr :=
  fold_left add_time
    (flat_map (fun p => re_findall nd_zeros p element_text)
              [PatColonOrDot; PatColon; PatDot])
    [].

(** The body of the loop over the matched containers; [None] is [continue]. *)
Definition movie_of_container (element : Element) : option Movie :=
  match probe_title element title_selectors None with
  | None => None
  | Some [] => None
  | Some title =>
      let times := listing_times (get_text element) in
      let movie_url :=
        match find_link element with
        | Some (_, href) => Some (urljoin site href)
        | None => None
        end in
      Some (mkMovie title movie_url times [] None)
  end.

(** The link scan used when no container selector matches. *)
Definition movie_of_link (link : Element * pystr) : option Movie :=
  let title := get_text_strip (fst link) in
  if usable_title title
  then Some (mkMovie title (Some (urljoin site (snd link))) [] [] None)
  else None.

Definition is_movie_href (href : pystr) : bool :=
  str_in (u "movie") href || str_in (u "film") href.

Definition extract_movie_data_from_schedule (soup : Element) : list Movie :=
  match first_matching soup movie_selectors with
  | [] =>
      let movie_links := filter (fun l => is_movie_href (snd l)) (find_all_links soup) in
      omap movie_of_link movie_links
  | movie_elements => omap movie_of_container movie_elements
  end.

(** *** [parse_schedule_calendar] *)

Definition calendar_selectors : list selector :=
  [ByClass "EyErB"; ByAttrIs "aria-label" (u "Календарь"); ByClass "calendar";
   ByClass "schedule-calendar"].

Fixpoint find_calendar_widget (soup : Element) (sels : list selector) : option Element :=
  match sels with
  | [] => None
  | s :: rest =>
      match select_one soup s with
      | Some w => Some w
      | None => find_calendar_widget soup rest
      end
  end.

(** Month and year read off the link's [aria-label]. *)
Definition month_year (aria_label : pystr) (now : datetime) : Z * Z :=
  if str_in (u "октября") aria_label then (10, 2025)
  else if str_in (u "ноября") aria_label then (11, 2025)
  else if str_in (u "декабря") aria_label then (12, 2025)
  else (month (dt_date now), year (dt_date now)).

(** The body of the loop over the active links: the date it appends, or
    [None] when the link has no day element or the date cannot be built. *)
Definition date_of_link (now : datetime) (link : Element) : option date :=
  let aria_label := default [] (get_attr link "aria-label") in
  match select_one link (ByClass "YCVqY") with
  | Some day_elem =>
      let day_number := get_text_strip day_elem in
      let '(month, year) := month_year aria_label now in
      match py_int nd_zeros day_number with
      | Some d => py_date year month d
      | None => None
      end
  | None => None
  end.

(** [available_dates] after the loop. *)
Definition available_dates (now : datetime) (widget : Element) : list date :=
  omap (date_of_link now) (find_all_a_class widget "pdT6c").

Definition parse_schedule_calendar (now : datetime) (soup : Element) : option date :=
  match find_calendar_widget soup calendar_selectors with
  | None => None
  | Some calendar_widget =>
      match available_dates now calendar_widget with
      | [] => None
      | dates => head (merge_sort date_le dates)
      end
  end.

(** *** [parse_showtimes_from_page] *)

Definition time_selectors : list selector :=
  [ByClass "showtime"; ByClass "session-time"; ByClass "time"; ByAttr "data-time";
   ByClass "screening-time"].

(** One element matched by a time selector. *)
Definition add_element_time (showtimes : list pystr) (elem : Element) : list pystr :=
  match re_search nd_zeros PatColonOrDot (get_text_strip elem) with
  | Some m => add_time showtimes m
  | None => showtimes
  end.

(** One match of the whole-page scan: only hours 6 to 23 are kept. *)
Definition add_page_time (showtimes : list pystr) (m : pystr) : list pystr :=
  let time_str := replace_dot_colon m in
  match strptime_hm nd_zeros time_str with
  | Some (hour, _) =>
      if ((6 <=? hour) && (hour <=? 23))%N
      then (if str_mem time_str showtimes then showtimes else showtimes ++ [time_str])
      else showtimes
  | None => showtimes
  end.

Definition parse_showtimes_from_page (soup : Element) : list pystr :=
  let showtimes :=
    fold_left add_element_time (flat_map (select soup) time_selectors) [] in
  match showtimes with
  | [] =>
      fold_left add_page_time
        (flat_map (fun p => re_findall nd_zeros p (get_text soup))
                  [PatColon; PatDot; PatColonOrDot])
        []
  | _ => showtimes
  end.

(** *** Countries of the detail page *)

Definition country_selectors : list selector :=
  [Descendant (ByAttrIs "data-test" (u "ITEM-META")) (ByTag "a"); ByClass "country";
   ByClass "film-country"; ByClass "movie-country";
   TagContains "span" (u "Страна"); ByClass "meta-info"; ByClass "film-meta"].

Definition label_words : list pystr :=
  [u "жанр"; u "режиссер"; u "актер"; u "год"; u "время"].

Definition add_country (countries : list pystr) (el : Element) : list pystr :=
  let country_text := get_text_strip el in
  if negb (Nat.eqb (length country_text) 0) && Nat.ltb (length country_text) 50
     && negb (str_mem country_text countries)
  then (if existsb (fun word => str_in word (py_lower country_text)) label_words
        then countries else countries ++ [country_text])
  else countries.

Definition parse_countries (soup : Element) : list pystr :=
  fold_left add_country (flat_map (select soup) country_selectors) [].

End Extraction.

(** ** Pagination controller *)

(** [l[:k]] *)
Definition slice_to {A} (l : list A) (k : Z) : list A :=
  if 0 <=? k then take (Z.to_nat k) l
  else take (length l - Z.to_nat (- k)) l.

(** The merge loop of one page: [st] is [(all_movies_data, existing_titles)]. *)
Definition merge_step (st : list Movie * gset pystr) (movie : Movie)
    : list Movie * gset pystr :=
  if decide (title movie ∈ st.2) then st
  else (st.1 ++ [movie], st.2 ∪ {[title movie]}).

Definition merge_page (all_movies_data page_movies : list Movie) : list Movie :=
  (fold_left merge_step page_movies
     (all_movies_data, list_to_set (map title all_movies_data))).1.

(** [MAX_MOVIES and len(all_movies_data) >= MAX_MOVIES] *)
Definition limit_reached (max_movies : option Z) (all_movies_data : list Movie) : bool :=
  match max_movies with
  | Some k => negb (k =? 0) && (k <=? Z.of_nat (length all_movies_data))
  | None => false
  end.

Section Controller.

Context {Element : Type} `{HtmlQuery Element}.
Variable env : Env Element.
Variable cfg : Config.
Variable nd_zeros : list N.
Variable urljoin : pystr -> pystr -> pystr.
Variable py_lower : pystr -> pystr.

(** [f"{base_url}page{n}/"] *)
Definition page_url_of (base_url : pystr) (n : Z) : pystr :=
  base_url ++ u "page" ++ str_of_Z n ++ u "/".

Definition movie_indicators : list selector :=
  [ByClass "movie"; ByClass "film"; ByClass "schedule"; ByClass "cinema"; ByTag "article"].

Definition check_next_page_exists (current_page : Z) (base_url : pystr) : M bool :=
  let next_page := current_page + 1 in
  test_soup <- get_soup env cfg (page_url_of base_url next_page) 1 Page ;;
  match test_soup with
  | Some soup => ret (existsb (fun ind => negb (Nat.eqb (length (select soup ind)) 0))
                              movie_indicators)
  | None => ret false
  end.

(** The [while current_page <= MAX_PAGES] loop; [fuel] bounds the number of
    iterations and is never the reason the loop ends (see
    [parse_all_schedule_pages]). *)
Fixpoint pages_loop (fuel : nat) (base_url : pystr) (current_page : Z)
    (all_movies_data : list Movie) : M (list Movie) :=
  match fuel with
  | O => ret all_movies_data
  | S fuel' =>
      if negb (current_page <=? MAX_PAGES cfg) then ret all_movies_data else
      let page_url :=
        if current_page =? 1 then base_url else page_url_of base_url current_page in
      soup <- get_soup env cfg page_url MAX_RETRIES Page ;;
      match soup with
      | None => ret all_movies_data
      | Some soup =>
          match extract_movie_data_from_schedule nd_zeros urljoin soup with
          | [] => ret all_movies_data
          | page_movies =>
              let all_movies_data := merge_page all_movies_data page_movies in
              if limit_reached (MAX_MOVIES cfg) all_movies_data
              then ret (slice_to all_movies_data (default 0 (MAX_MOVIES cfg)))
              else
                has_next <-
                  (if current_page <? MAX_PAGES cfg
                   then check_next_page_exists current_page base_url
                   else ret true) ;;
                if has_next
                then smart_delay cfg Page ;;;
                     pages_loop fuel' base_url (current_page + 1) all_movies_data
                else ret all_movies_data
          end
      end
  end.

Definition parse_all_schedule_pages (base_url : pystr) : M (list Movie) :=
  pages_loop (Z.to_nat (MAX_PAGES cfg)) base_url 1 [].

(** ** Detail enricher *)

(** Truth value of [movie_data['url']]. *)
Definition url_given (movie_url : option pystr) : option pystr :=
  match movie_url with
  | Some [] => None
  | other => other
  end.

Definition parse_movie_details_and_schedule (movie_url : option pystr)
    : M (list pystr * option date * list pystr) :=
  match url_given movie_url with
  | None => ret ([], None, [])
  | Some target =>
      soup <- get_soup env cfg target MAX_RETRIES Detail ;;
      match soup with
      | None => ret ([], None, [])
      | Some soup =>
          let countries := parse_countries py_lower soup in
          now <- datetime_now env ;;
          let nearest_show_date := parse_schedule_calendar nd_zeros now soup in
          let showtimes := parse_showtimes_from_page nd_zeros soup in
          ret (countries, nearest_show_date, showtimes)
      end
  end.

(** ** Event materializer *)

(** [str] order as a relation, for [sorted]. *)
Definition str_le (a b : pystr) : Prop := str_lt b a = false.

Global Instance str_le_dec : RelDecision str_le.
Proof. intros a b. unfold str_le. apply _. Defined.

(** [sorted(list(set(times + detailed_times)))] *)
Definition merge_times (times detailed_times : list pystr) : list pystr :=
  merge_sort str_le (elements (list_to_set (times ++ detailed_times) : gset pystr)).

(** The time of day of the event: the first showtime when it parses, else
    19:00. *)
Definition event_time (times : list pystr) : Z * Z :=
  match times with
  | time_str :: _ =>
      match strptime_hm nd_zeros time_str with
      | Some (h, m) => (Z.of_N h, Z.of_N m)
      | None => (19, 0)
      end
  | [] => (19, 0)
  end.

Definition description_of (movie : Movie) (event_datetime : datetime) : pystr :=
  join [10%N]
    ([u "Фильм: " ++ title movie]
     ++ (match countries movie with
         | [] => []
         | cs => [u "Страна: " ++ join (u ", ") (take 3 cs)]
         end)
     ++ (match times movie with
         | [] => []
         | ts => [u "Сеансы: " ++ join (u ", ") (take 5 ts)]
         end)
     ++ (match nearest_show_date movie with
         | Some d => [u "Ближайший показ: " ++ strftime_dmy d]
         | None => []
         end)
     ++ [u "Дата события: " ++ strftime_dmy_hm event_datetime]
     ++ (match url_given (url movie) with
         | Some movie_url => [u "Источник: " ++ movie_url]
         | None => []
         end)).

(** [now] is the value of [datetime.now()] read inside the function; [None]
    is the [None] returned for an excluded country. *)
Definition create_calendar_event (now : datetime) (movie : Movie) : option Event :=
  if existsb (fun country => str_mem country (EXCLUDE_COUNTRIES cfg)) (countries movie)
  then None
  else
    let event_date :=
      match nearest_show_date movie with
      | Some d => d
      | None => next_day (dt_date now)
      end in
    let '(h, m) := event_time (times movie) in
    let event_datetime := combine event_date h m in
    Some (mkEvent (title movie) event_datetime (plus_two_hours event_datetime)
                  (description_of movie event_datetime) (url_given (url movie))).

(** ** Run orchestrator *)

Definition base_schedule_url : pystr := u "https://www.afisha.ru/prm/schedule_cinema/".

(** The enrichment step of [main]'s loop body. *)
Definition enrich (movie : Movie) : M Movie :=
  if negb (SKIP_DETAILS cfg) && bool_decide (is_Some (url_given (url movie)))
  then
    details <- parse_movie_details_and_schedule (url movie) ;;
    let '(countries, nearest_date, detailed_times) := details in
    let times' :=
      match detailed_times with
      | [] => times movie
      | _ => merge_times (times movie) detailed_times
      end in
    ret (mkMovie (title movie) (url movie) times' countries nearest_date)
  else ret (mkMovie (title movie) (url movie) (times movie) [] None).

(** [main]'s loop over the movies: [idx] counts from 1, [cal] is the
    calendar so far; an exception inside the body skips the movie. *)
Fixpoint process_movies (idx total_movies : Z) (movies : list Movie) (cal : Calendar)
    : M Calendar :=
  match movies with
  | [] => ret cal
  | movie_data :: rest =>
      cal' <-
        try_except
          (movie <- enrich movie_data ;;
           now <- datetime_now env ;;
           let cal' :=
             match create_calendar_event now movie with
             | Some event => cal ++ [event]
             | None => cal
             end in
           (if idx <? total_movies then smart_delay cfg Default else ret tt) ;;;
           ret cal')
          (fun _ => ret cal) ;;
      process_movies (idx + 1) total_movies rest cal'
  end.

Definition no_movies_event (now : datetime) : Event :=
  mkEvent (u "Фильмы не найдены") (plus_one_day now)
          (plus_two_hours (plus_one_day now))
          (u "Не удалось найти фильмы в расписании кинотеатров") None.

Definition error_event (now : datetime) (e : exn) : Event :=
  mkEvent (u "Ошибка парсинга") (plus_one_day now)
          (plus_two_hours (plus_one_day now))
          (u "Произошла ошибка при парсинге: " ++ match e with Error msg => msg end) None.

Definition main : M unit :=
  try_except
    (all_movies_data <- parse_all_schedule_pages base_schedule_url ;;
     cal <-
       match all_movies_data with
       | [] => now <- datetime_now env ;; ret [no_movies_event now]
       | _ => process_movies 1 (Z.of_nat (length all_movies_data)) all_movies_data []
       end ;;
     write_calendar cal)
    (fun e =>
       now <- datetime_now env ;;
       write_calendar [error_event now e] ;;;
       raise e).

End Controller.

(** ** A small document model

    An instance of [HtmlQuery] on explicit trees, used to run the functions
    above on concrete pages. *)

#[warnings="-register-all"]
Inductive node :=
| Tag (name : string) (classes : list string) (attrs : list (string * pystr))
      (children : list node)
| Text (s : pystr).

Fixpoint descendants (n : node) : list node :=
  match n with
  | Text _ => []
  | Tag _ _ _ children =>
      (fix go (l : list node) : list node :=
         match l with
         | [] => []
         | c :: r => c :: descendants c ++ go r
         end) children
  end.

Fixpoint node_strings (n : node) : list pystr :=
  match n with
  | Text s => [s]
  | Tag _ _ _ children =>
      (fix go (l : list node) : list pystr :=
         match l with
         | [] => []
         | c :: r => node_strings c ++ go r
         end) children
  end.

Definition is_tag (t : string) (n : node) : bool :=
  match n with
  | Tag name _ _ _ => String.eqb name t
  | Text _ => false
  end.

Definition has_class (c : string) (n : node) : bool :=
  match n with
  | Tag _ classes _ _ => existsb (String.eqb c) classes
  | Text _ => false
  end.

Definition node_attr (n : node) (a : string) : option pystr :=
  match n with
  | Tag _ _ attrs _ => snd <$> find (fun kv => String.eqb (fst kv) a) attrs
  | Text _ => None
  end.

Definition node_matches (s : selector) (n : node) : bool :=
  match s with
  | ByClass c => has_class c n
  | ByTag t => is_tag t n
  | ByAttr a => bool_decide (is_Some (node_attr n a))
  | ByAttrIs a v => bool_decide (node_attr n a = Some v)
  | TagContains t text => is_tag t n && str_in text (concat (node_strings n))
  | Descendant _ _ => false
  end.

Fixpoint node_select (n : node) (s : selector) : list node :=
  match s with
  | Descendant s1 s2 => flat_map (fun a => node_select a s2) (node_select n s1)
  | _ => filter (fun d => node_matches s d) (descendants n)
  end.

Definition node_links (n : node) : list (node * pystr) :=
  omap (fun d => if is_tag "a" d then (fun h => (d, h)) <$> node_attr d "href" else None)
       (descendants n).

Global Instance node_query : HtmlQuery node := {|
  select := node_select;
  find_all_links := node_links;
  find_all_a_class := fun n c => filter (fun d => is_tag "a" d && has_class c d) (descendants n);
  strings := node_strings;
  get_attr := node_attr
|}.

(** Zeros of some decimal-digit blocks: Arabic-Indic, Extended Arabic-Indic,
    Devanagari, fullwidth. *)
Definition nd_zeros_sample : list N := [1632; 1776; 2406; 65296]%N.

(** [urljoin] of a site root and an absolute path. *)
Definition urljoin_sample (base href : pystr) : pystr := base ++ href.

(** [str.lower] on Latin and Cyrillic capitals. *)
Definition lower_sample (s : pystr) : pystr :=
  map (fun c => if (((65 <=? c) && (c <=? 90)) || ((1040 <=? c) && (c <=? 1071)))%N
                then (c + 32)%N else c) s.

(** An environment that answers every request the same way. *)
Definition always {Element} (r : response Element) (now : datetime) : Env Element :=
  mkEnv Element (fun _ _ => r) (fun _ => now).

(** An environment that answers the n-th request with the n-th entry of
    [script], and [RaiseTimeout] once the script is used up. *)
Definition is_get (a : action) : bool :=
  match a with Get _ => true | _ => false end.

Definition count_gets (h : list action) : nat := length (filter is_get h).

Definition scripted {Element} (script : list (response Element)) (now : datetime)
    : Env Element :=
  mkEnv Element (fun h _ => default RaiseTimeout (script !! count_gets h)) (fun _ => now).

Definition default_config : Config := mkConfig None 10 5 [u "Россия"] false.

Definition empty_world : World := mkWorld [] None.

Definition sample_now : datetime := mkdatetime (mkdate 2025 10 14) 9 30 15 0.

(** * Vocabulary of the statements *)

(** The world [w] after the actions [h]. *)
Definition extend (w : World) (h : list action) : World :=
  mkWorld (history w ++ h) (calendar_ics w).



(** Month and day are in range (true of every [datetime.date]). *)
Definition well_formed (d : date) : Prop :=
  1 <= month d <= 12 /\ 1 <= day d <= days_in_month (year d) (month d).

(** The address of page [n]. *)
Definition page_address (base_url : pystr) (n : Z) : pystr :=
  if n =? 1 then base_url else page_url_of base_url n.

(** The list the merge loop builds, without the auxiliary set. *)
Definition merge_list (acc page : list Movie) : list Movie :=
  fold_left (fun acc m => if decide (title m ∈ map title acc) then acc else acc ++ [m])
            page acc.

(** Neither the first nor the last character is white space. *)
Definition clean_ends (s : pystr) : Prop :=
  (forall c, head s = Some c -> py_isspace c = false)
  /\ (forall c, last s = Some c -> py_isspace c = false).

Section ClockVocabulary.

Local Open Scope N_scope.

Variable nd_zeros : list N.

(** What a showtime string reads as: [H:MM] or [HH:MM] in decimal digits;
    [None] when it has another shape. *)
Definition two_digits (a b : N) : option N :=
  match digit_value nd_zeros a, digit_value nd_zeros b with
  | Some x, Some y => Some (10 * x + y)
  | _, _ => None
  end.

Definition clock_value (s : pystr) : option (N * N) :=
  match s with
  | [a; b; c; d; e] =>
      if c =? 58
      then match two_digits a b, two_digits d e with
           | Some h, Some m => Some (h, m)
           | _, _ => None
           end
      else None
  | [a; c; d; e] =>
      if c =? 58
      then match digit_value nd_zeros a, two_digits d e with
           | Some h, Some m => Some (h, m)
           | _, _ => None
           end
      else None
  | _ => None
  end.

(** A time of the 24-hour clock. *)
Definition valid_clock (s : pystr) : Prop :=
  exists h m, clock_value s = Some (h, m) /\ h <= 23 /\ m <= 59.

(** Every character is below 128. *)
Definition ascii_only (s : pystr) : Prop := Forall (fun c => c < 128) s.

(** The two shapes a match has once dots are replaced. *)
Inductive time_shape : pystr -> Prop :=
| Shape5 d1 d2 d3 d4 v1 v2 v3 v4 :
    digit_value nd_zeros d1 = Some v1 -> digit_value nd_zeros d2 = Some v2 ->
    digit_value nd_zeros d3 = Some v3 -> digit_value nd_zeros d4 = Some v4 ->
    time_shape [d1; d2; 58; d3; d4]
| Shape4 d1 d3 d4 v1 v3 v4 :
    digit_value nd_zeros d1 = Some v1 ->
    digit_value nd_zeros d3 = Some v3 -> digit_value nd_zeros d4 = Some v4 ->
    time_shape [d1; 58; d3; d4].

(** The hour and minute tests of [strptime] on the two shapes. *)
Definition hour_ok (d1 d2 : N) : bool :=
  ((d1 =? 50) && (48 <=? d2) && (d2 <=? 51)) || ((48 <=? d1) && (d1 <=? 49)).

Definition minute_ok (d3 : N) : bool := (48 <=? d3) && (d3 <=? 53).

(** [m] is what one of the time patterns matched somewhere. *)
Definition is_match (m : pystr) : Prop :=
  exists p s, match_time nd_zeros p s = Some m.

End ClockVocabulary.

(** ** Traces of the fetcher and of the controller *)

(** Every request of the trace goes to [target]. *)
Definition requests_only (target : pystr) (h : list action) : Prop :=
  Forall (fun a => forall t, a = Get t -> t = target) h.





(** Every request of the trace asks for one of the pages [first] to [last]
    of the listing. *)
Definition requests_pages (base_url : pystr) (first last : Z) (h : list action) : Prop :=
  Forall (fun a => forall t, a = Get t ->
                   exists k, first <= k <= last /\ t = page_address base_url k) h.

(** ** Detail pages and events *)

(** The times the time selectors give on a detail page. *)
Definition selector_times {Element : Type} `{HtmlQuery Element}
    (nd_zeros : list N) (soup : Element) : list pystr :=
  fold_left (add_element_time nd_zeros) (flat_map (select soup) time_selectors) [].

Section DetailVocabulary.

Variable nd_zeros : list N.
Variable py_lower : pystr -> pystr.

(** A plausible hour of a screening. *)
Definition screening_hour (s : pystr) : Prop :=
  exists h m, strptime_hm nd_zeros s = Some (h, m) /\ (6 <= h <= 23)%N.

(** What [parse_countries] lets through. *)
Definition country_like (c : pystr) : Prop :=
  c <> [] /\ (length c < 50)%nat /\ strip c = c
  /\ forall word, word ∈ label_words -> str_in word (py_lower c) = false.

End DetailVocabulary.

(** The microseconds of a day. *)
Definition one_day : Z := 24 * 3600 * 1000000.

(** ** The pages of a run *)

Section RunVocabulary.

Context {Element : Type} `{HtmlQuery Element}.
Variable env : Env Element.
Variable cfg : Config.
Variable nd_zeros : list N.
Variable urljoin : pystr -> pystr -> pystr.
Variable base_url : pystr.


End RunVocabulary.

(** * Sample pages and runs *)

Definition blank_page : node := Tag "html" [] [] [].

(** One listing container whose only title candidate is two characters
    long. *)
Definition short_title_page : node :=
  Tag "html" [] []
    [Tag "div" ["movie-item"%string] [] [Tag "h2" [] [] [Text (u "AB")]]].

(** One listing container with three time-shaped texts. *)
Definition showtimes_page : node :=
  Tag "html" [] []
    [Tag "div" ["movie-item"%string] []
       [Tag "h2" [] [] [Text (u "Dune 2")];
        Tag "span" [] [] [Text (u " 9:30, 25:61, 10.15")]]].

Definition movie_block (name : string) : node :=
  Tag "div" ["movie"%string] [] [Tag "h2" [] [] [Text (u name)]].

Definition listing_page (names : list string) : node :=
  Tag "html" [] [] (map movie_block names).

Definition first_page : node :=
  listing_page ["Alien"; "Brazil"; "Casino"; "Dogville"]%string.

Definition second_page : node :=
  listing_page ["Eraserhead"; "Fargo"; "Gattaca"; "Heat"]%string.

Definition record_of (name : string) : Movie := mkMovie (u name) None [] [] None.

(** A detail page with one showtime element. *)
Definition detail_page : node :=
  Tag "html" [] [] [Tag "span" ["showtime"%string] [] [Text (u "10:00")]].

(** An active day of the calendar widget. *)
Definition day_link (label day_number : string) : node :=
  Tag "a" ["pdT6c"%string] [("aria-label"%string, u label)]
    [Tag "span" ["YCVqY"%string] [] [Text (u day_number)]].

(** The calendar widget with three active days: 31 November (no such day),
    20 December and 15 October. *)
Definition calendar_widget : node :=
  Tag "div" ["EyErB"%string] []
    [day_link "31 ноября" "31"; day_link "20 декабря" "20";
     day_link "15 октября" " 15 "].

Definition calendar_page : node := Tag "html" [] [] [calendar_widget].

(** Two pages that share the title Brazil, with different records. *)
Definition overlapping_pages : list (list Movie) :=
  [[record_of "Alien"; record_of "Brazil"];
   [mkMovie (u "Brazil") (Some (u "/movie/brazil/")) [u "21:00"] [] None;
    record_of "Casino"]].

Definition limit_config (k : Z) : Config := mkConfig (Some k) 10 5 [u "Россия"] false.

Definition dune : Movie :=
  mkMovie (u "Dune") (Some (u "https://www.afisha.ru/movie/dune/")) [u "9:30"] [] None.

(** A page without listing containers, with one link to a movie and one
    elsewhere. *)
Definition links_page : node :=
  Tag "html" [] []
    [Tag "a" [] [("href"%string, u "/movie/heat/")] [Text (u " Heat ")];
     Tag "a" [] [("href"%string, u "/about/")] [Text (u "About us")]].

(** * Facts about dates *)

Lemma days_before_year_succ y :
  days_before_year (y + 1) = days_before_year y + (if is_leap y then 366 else 365).
Proof.
  unfold days_before_year, is_leap.
  replace (y + 1 - 1) with y by lia.
  destruct (Z.eqb_spec (y mod 4) 0), (Z.eqb_spec (y mod 100) 0),
    (Z.eqb_spec (y mod 400) 0); simpl;
    Z.div_mod_to_equations; lia.
Qed.

Lemma toordinal_next_day d :
  well_formed d -> toordinal (next_day d) = toordinal d + 1.
Proof.
  destruct d as [y m dd]. unfold well_formed, next_day, toordinal. simpl.
  intros [Hm Hd].
  destruct (Z.ltb_spec dd (days_in_month y m)); simpl; [lia|].
  assert (dd = days_in_month y m) as -> by lia.
  destruct (Z.ltb_spec m 12); simpl.
  - unfold days_in_month, days_before_month.
    assert (m = 1 \/ m = 2 \/ m = 3 \/ m = 4 \/ m = 5 \/ m = 6 \/ m = 7 \/ m = 8
            \/ m = 9 \/ m = 10 \/ m = 11) as Hcases by lia.
    generalize (days_before_year y). intros base.
    destruct (is_leap y);
      repeat (destruct Hcases as [-> | Hcases]; [simpl; lia|]); subst; simpl; lia.
  - assert (m = 12) as -> by lia.
    rewrite days_before_year_succ. unfold days_in_month, days_before_month.
    generalize (days_before_year y). intros base. simpl.
    destruct (is_leap y); simpl; lia.
Qed.

Lemma well_formed_next_day d : well_formed d -> well_formed (next_day d).
Proof.
  destruct d as [y m dd]. unfold well_formed, next_day. simpl. intros [Hm Hd].
  destruct (Z.ltb_spec dd (days_in_month y m)); simpl; [lia|].
  destruct (Z.ltb_spec m 12); simpl.
  - split; [lia|]. unfold days_in_month.
    repeat match goal with |- context [if ?b then _ else _] => destruct b end; lia.
  - unfold days_in_month. simpl. lia.
Qed.

Lemma timestamp_plus_two_hours dt :
  well_formed (dt_date dt) ->
  timestamp (plus_two_hours dt) = timestamp dt + two_hours.
Proof.
  intros Hwf. unfold plus_two_hours, timestamp, two_hours.
  destruct (Z.ltb_spec (dt_hour dt + 2) 24); simpl; [lia|].
  rewrite toordinal_next_day by done. lia.
Qed.


Lemma py_date_spec y m n d :
  py_date y m n = Some d <-> d = mkdate y m n /\ valid_date d.
Proof.
  unfold py_date, valid_date. split.
  - case_match eqn:Hc; [|done]. intros [= <-]. split; [done|]. simpl.
    repeat (apply andb_prop in Hc as [Hc ?]). lia.
  - intros [-> Hvalid]. simpl in Hvalid.
    destruct (Z.leb_spec 1 y), (Z.leb_spec y 9999), (Z.leb_spec 1 m), (Z.leb_spec m 12),
      (Z.leb_spec 1 n), (Z.leb_spec n (days_in_month y m)); simpl; (done || lia).
Qed.

Lemma py_date_well_formed y m d dd : py_date y m d = Some dd -> valid_date dd /\ well_formed dd.
Proof.
  unfold py_date. case_match eqn:Hc; [|done]. intros [= <-].
  unfold valid_date, well_formed. simpl.
  repeat (apply andb_prop in Hc as [Hc ?]). lia.
Qed.

(** * Facts about the fetcher *)

Section FetcherFacts.

Context {Element : Type}.
Variable env : Env Element.
Variable cfg : Config.

Lemma bind_unfold {A B} (m : M A) (k : A -> M B) w :
  bind m k w = match m w with
               | (Return a, w') => k a w'
               | (Raise e, w') => (Raise e, w')
               end.
Proof. reflexivity. Qed.

Lemma extend_extend w h1 h2 : extend (extend w h1) h2 = extend w (h1 ++ h2).
Proof. unfold extend. simpl. by rewrite <- app_assoc. Qed.

Lemma extend_nil w : extend w [] = w.
Proof. destruct w. unfold extend. simpl. by rewrite app_nil_r. Qed.



Lemma count_gets_app h1 h2 : count_gets (h1 ++ h2) = (count_gets h1 + count_gets h2)%nat.
Proof. unfold count_gets. by rewrite filter_app, length_app. Qed.




(** C4 (amended): a 404 answer ends the fetch at once, at any attempt: no
    wait and no request follows it.  The value returned is [None], the value
    an exhausted attempt loop returns. *)
Theorem C4_not_found_returns_none_at_once rest attempt retries delay target rt w body :
  let pre := if 1 <? attempt then [SleepJitter (BASE_DELAY cfg * 2)] else [] in
  session_get env (history w ++ pre) target = Response 404 body ->
  get_soup_loop env cfg (S rest) attempt retries delay target rt w
  = (Return None, extend w (pre ++ [Get target]))
  /\ forall w', (get_soup_loop env cfg 0 attempt retries delay target rt w').1
              = (get_soup_loop env cfg (S rest) attempt retries delay target rt w).1.
Proof.
  intros pre H404.
  assert (Hrun : get_soup_loop env cfg (S rest) attempt retries delay target rt w
                 = (Return None, extend w (pre ++ [Get target]))).
  { cbn [get_soup_loop].
    assert (Hpre : (if 1 <? attempt then smart_delay cfg Retry else ret tt) w
                   = (Return tt, extend w pre)).
    { subst pre. destruct (1 <? attempt); [reflexivity|].
      unfold ret. by rewrite extend_nil. }
    rewrite bind_unfold, Hpre, bind_unfold. unfold http_get at 1.
    change (history (extend w pre)) with (history w ++ pre). rewrite H404.
    change (404 =? 429) with false. change (404 =? 404) with true. cbv iota.
    unfold ret. f_equal. unfold extend. simpl. by rewrite <- app_assoc. }
  split; [exact Hrun|]. intros w'. rewrite Hrun. reflexivity.
Qed.

End FetcherFacts.

Local Open Scope N_scope.

(** * Facts about showtimes *)

Section Clock.

Variable nd_zeros : list N.

Lemma digit_value_ascii c :
  48 <= c <= 57 -> digit_value nd_zeros c = Some (c - 48).
Proof.
  intros Hc. unfold digit_value.
  destruct (N.leb_spec 48 c); [|lia]. destruct (N.leb_spec c 57); [|lia]. done.
Qed.

Lemma digit_value_inv c v :
  digit_value nd_zeros c = Some v ->
  v <= 9 /\ ((48 <= c <= 57 /\ v = c - 48) \/ 128 <= c).
Proof.
  unfold digit_value.
  destruct (N.leb_spec 48 c); destruct (N.leb_spec c 57); simpl;
    try (intros [= <-]; lia).
  all: destruct (N.ltb_spec c 128); [done|].
  all: destruct (find _ nd_zeros) as [z|] eqn:Hfind; [|done].
  all: apply find_some in Hfind as [_ Hz].
  all: apply andb_true_iff in Hz as [Hz1 Hz2].
  all: apply N.leb_le in Hz1; apply N.ltb_lt in Hz2.
  all: intros [= <-]; lia.
Qed.

Lemma is_digit_value c : is_digit nd_zeros c = true -> exists v, digit_value nd_zeros c = Some v.
Proof. unfold is_digit. destruct (digit_value nd_zeros c) as [v|]; [by exists v|done]. Qed.

Lemma is_sep_inv p c : is_sep p c = true -> c = 58 \/ c = 46.
Proof.
  destruct p; simpl; intros Hc.
  - apply orb_true_iff in Hc as [Hc|Hc]; apply N.eqb_eq in Hc; auto.
  - apply N.eqb_eq in Hc. auto.
  - apply N.eqb_eq in Hc. auto.
Qed.

Lemma replace_digit c v :
  digit_value nd_zeros c = Some v -> (if c =? 46 then 58 else c) = c.
Proof.
  intros Hc. apply digit_value_inv in Hc as [_ Hc].
  destruct (N.eqb_spec c 46); [lia|done].
Qed.

Lemma replace_sep p c : is_sep p c = true -> (if c =? 46 then 58 else c) = 58.
Proof. intros Hc. apply is_sep_inv in Hc as [-> | ->]; reflexivity. Qed.

Lemma match_time_shape p s m :
  match_time nd_zeros p s = Some m -> time_shape nd_zeros (replace_dot_colon m).
Proof.
  unfold match_time. intros Hm.
  assert (Hfive : forall d1 d2 c d3 d4,
    is_digit nd_zeros d1 && is_digit nd_zeros d2 && is_sep p c
      && is_digit nd_zeros d3 && is_digit nd_zeros d4 = true ->
    time_shape nd_zeros (replace_dot_colon [d1; d2; c; d3; d4])).
  { intros d1 d2 c d3 d4 Hc.
    apply andb_true_iff in Hc as [Hc E4]. apply andb_true_iff in Hc as [Hc E3].
    apply andb_true_iff in Hc as [Hc Ec]. apply andb_true_iff in Hc as [E1 E2].
    destruct (is_digit_value d1 E1) as [v1 H1].
    destruct (is_digit_value d2 E2) as [v2 H2].
    destruct (is_digit_value d3 E3) as [v3 H3].
    destruct (is_digit_value d4 E4) as [v4 H4].
    unfold replace_dot_colon. cbn [map].
    rewrite (replace_digit d1 v1), (replace_digit d2 v2), (replace_digit d3 v3),
      (replace_digit d4 v4), (replace_sep p c) by done.
    by eapply Shape5. }
  assert (Hfour : forall d1 c d3 d4,
    is_digit nd_zeros d1 && is_sep p c
      && is_digit nd_zeros d3 && is_digit nd_zeros d4 = true ->
    time_shape nd_zeros (replace_dot_colon [d1; c; d3; d4])).
  { intros d1 c d3 d4 Hc.
    apply andb_true_iff in Hc as [Hc E4]. apply andb_true_iff in Hc as [Hc E3].
    apply andb_true_iff in Hc as [E1 Ec].
    destruct (is_digit_value d1 E1) as [v1 H1].
    destruct (is_digit_value d3 E3) as [v3 H3].
    destruct (is_digit_value d4 E4) as [v4 H4].
    unfold replace_dot_colon. cbn [map].
    rewrite (replace_digit d1 v1), (replace_digit d3 v3),
      (replace_digit d4 v4), (replace_sep p c) by done.
    by eapply Shape4. }
  destruct s as [|a [|b [|c [|d [|e r]]]]]; try done.
  - destruct (_ && _) eqn:Hc in Hm; [|done]. injection Hm as <-. by apply Hfour.
  - destruct (_ && _) eqn:Hc in Hm.
    + injection Hm as <-. by apply Hfive.
    + destruct (_ && _) eqn:Hc' in Hm; [|done]. injection Hm as <-. by apply Hfour.
Qed.

Lemma not_sep_digit c v : digit_value nd_zeros c = Some v -> (c =? 58) = false.
Proof.
  intros Hc. apply digit_value_inv in Hc as [_ Hc]. apply N.eqb_neq. lia.
Qed.

Lemma minute_alternatives_two d3 d4 v3 v4 :
  digit_value nd_zeros d3 = Some v3 -> digit_value nd_zeros d4 = Some v4 ->
  head (minute_alternatives nd_zeros [d3; d4])
  = Some (if minute_ok d3 then (10 * v3 + v4, []) else (v3, [d4])).
Proof.
  intros H3 H4. unfold minute_alternatives, minute_ok. rewrite H3, H4.
  destruct ((48 <=? d3) && (d3 <=? 53)) eqn:Hc; [|done].
  apply andb_true_iff in Hc as [Hc1 Hc2]. apply N.leb_le in Hc1, Hc2.
  rewrite digit_value_ascii in H3 by lia. injection H3 as <-. done.
Qed.

Lemma strptime_shape5 d1 d2 d3 d4 v1 v2 v3 v4 :
  digit_value nd_zeros d1 = Some v1 -> digit_value nd_zeros d2 = Some v2 ->
  digit_value nd_zeros d3 = Some v3 -> digit_value nd_zeros d4 = Some v4 ->
  strptime_hm nd_zeros [d1; d2; 58; d3; d4]
  = if hour_ok d1 d2 && minute_ok d3 then Some (10 * v1 + v2, 10 * v3 + v4) else None.
Proof.
  intros H1 H2 H3 H4.
  pose proof (minute_alternatives_two d3 d4 v3 v4 H3 H4) as Hmin.
  pose proof (not_sep_digit d2 v2 H2) as Hsep.
  unfold strptime_hm, match_hm, hour_alternatives, hour_ok.
  rewrite H1, H2.
  destruct (minute_alternatives nd_zeros [d3; d4]) as [|[mi rest] others] eqn:Hma;
    [done|].
  simpl in Hmin. injection Hmin as Hmin.
  destruct ((d1 =? 50) && (48 <=? d2) && (d2 <=? 51)) eqn:Ha.
  - apply andb_true_iff in Ha as [Ha Hc2]. apply andb_true_iff in Ha as [Ha Hc1].
    apply N.eqb_eq in Ha as ->. apply N.leb_le in Hc1, Hc2.
    rewrite digit_value_ascii in H1, H2 by lia.
    injection H1 as <-. injection H2 as <-.
    cbn [first_some app orb andb]. change (58 =? 58) with true. cbv iota.
    rewrite Hma.
    destruct (minute_ok d3); injection Hmin as -> ->; done.
  - cbn [orb app].
    destruct ((48 <=? d1) && (d1 <=? 49)) eqn:Hb.
    + apply andb_true_iff in Hb as [Hb1 Hb2]. apply N.leb_le in Hb1, Hb2.
      rewrite digit_value_ascii in H1 by lia. injection H1 as <-.
      cbn [first_some app andb]. change (58 =? 58) with true. cbv iota.
      rewrite Hma.
      destruct (minute_ok d3); injection Hmin as -> ->; done.
    + cbn [first_some app andb]. rewrite Hsep. done.
Qed.

Lemma strptime_shape4 d1 d3 d4 v1 v3 v4 :
  digit_value nd_zeros d1 = Some v1 ->
  digit_value nd_zeros d3 = Some v3 -> digit_value nd_zeros d4 = Some v4 ->
  strptime_hm nd_zeros [d1; 58; d3; d4]
  = if minute_ok d3 then Some (v1, 10 * v3 + v4) else None.
Proof.
  intros H1 H3 H4.
  pose proof (minute_alternatives_two d3 d4 v3 v4 H3 H4) as Hmin.
  unfold strptime_hm, match_hm, hour_alternatives.
  rewrite H1.
  replace ((d1 =? 50) && (48 <=? 58) && (58 <=? 51)) with false
    by (by rewrite andb_false_r).
  replace (digit_value nd_zeros 58) with (@None N) by done.
  destruct (minute_alternatives nd_zeros [d3; d4]) as [|[mi rest] others] eqn:Hma;
    [done|].
  simpl in Hmin. injection Hmin as Hmin.
  destruct ((48 <=? d1) && (d1 <=? 49));
    cbn [first_some app]; change (58 =? 58) with true; cbv iota; rewrite Hma;
    destruct (minute_ok d3); injection Hmin as -> ->; done.
Qed.

(** A match that [strptime] accepts is a time of the 24-hour clock. *)
Lemma accepted_shape_valid s hm :
  time_shape nd_zeros s -> strptime_hm nd_zeros s = Some hm -> valid_clock nd_zeros s.
Proof.
  intros Hshape Hparse. destruct hm as [h mi]. exists h, mi.
  destruct Hshape as [d1 d2 d3 d4 v1 v2 v3 v4 H1 H2 H3 H4 | d1 d3 d4 v1 v3 v4 H1 H3 H4].
  - rewrite (strptime_shape5 _ _ _ _ _ _ _ _ H1 H2 H3 H4) in Hparse.
    destruct (hour_ok d1 d2 && minute_ok d3) eqn:Hok; [|done].
    injection Hparse as <- <-.
    unfold clock_value, two_digits. rewrite H1, H2, H3, H4. simpl. split; [done|].
    apply andb_true_iff in Hok as [Hh Hm]. unfold hour_ok, minute_ok in *.
    pose proof (digit_value_inv _ _ H2) as [? _].
    pose proof (digit_value_inv _ _ H4) as [? _].
    apply andb_true_iff in Hm as [Hm1 Hm2]. apply N.leb_le in Hm1, Hm2.
    rewrite digit_value_ascii in H3 by lia. injection H3 as <-.
    apply orb_true_iff in Hh as [Hh|Hh].
    + apply andb_true_iff in Hh as [Hh Hc2]. apply andb_true_iff in Hh as [Hh Hc1].
      apply N.eqb_eq in Hh as ->. apply N.leb_le in Hc1, Hc2.
      rewrite digit_value_ascii in H2 by lia. injection H2 as <-.
      injection H1 as <-. lia.
    + apply andb_true_iff in Hh as [Hh1 Hh2]. apply N.leb_le in Hh1, Hh2.
      rewrite digit_value_ascii in H1 by lia. injection H1 as <-. lia.
  - rewrite (strptime_shape4 _ _ _ _ _ _ H1 H3 H4) in Hparse.
    destruct (minute_ok d3) eqn:Hm; [|done].
    injection Hparse as <- <-.
    unfold clock_value, two_digits. rewrite H1, H3, H4. simpl. split; [done|].
    unfold minute_ok in Hm.
    apply digit_value_inv in H1 as [? _]. apply digit_value_inv in H4 as [? _].
    apply andb_true_iff in Hm as [Hm1 Hm2]. apply N.leb_le in Hm1, Hm2.
    rewrite digit_value_ascii in H3 by lia. injection H3 as <-. lia.
Qed.

(** In ASCII digits, [strptime] accepts every time of the 24-hour clock. *)
Lemma valid_shape_accepted s :
  time_shape nd_zeros s -> ascii_only s -> valid_clock nd_zeros s ->
  is_Some (strptime_hm nd_zeros s).
Proof.
  intros Hshape Hascii (h & mi & Hval & Hh & Hmi).
  destruct Hshape as [d1 d2 d3 d4 v1 v2 v3 v4 H1 H2 H3 H4 | d1 d3 d4 v1 v3 v4 H1 H3 H4].
  - rewrite (strptime_shape5 _ _ _ _ _ _ _ _ H1 H2 H3 H4).
    unfold clock_value, two_digits in Hval. rewrite H1, H2, H3, H4 in Hval.
    simpl in Hval. injection Hval as <- <-.
    unfold ascii_only in Hascii. rewrite !Forall_cons in Hascii.
    destruct Hascii as (A1 & A2 & _ & A3 & A4 & _).
    apply digit_value_inv in H1 as [? [[? ->]|?]]; [|lia].
    apply digit_value_inv in H2 as [? [[? ->]|?]]; [|lia].
    apply digit_value_inv in H3 as [? [[? ->]|?]]; [|lia].
    apply digit_value_inv in H4 as [? [[? ->]|?]]; [|lia].
    assert (hour_ok d1 d2 = true) as ->.
    { unfold hour_ok. apply orb_true_iff.
      destruct (N.eq_dec d1 50) as [->|].
      - left. rewrite !andb_true_iff, N.eqb_eq, !N.leb_le. lia.
      - right. rewrite !andb_true_iff, !N.leb_le. lia. }
    assert (minute_ok d3 = true) as ->.
    { unfold minute_ok. rewrite !andb_true_iff, !N.leb_le. lia. }
    by eexists.
  - rewrite (strptime_shape4 _ _ _ _ _ _ H1 H3 H4).
    unfold clock_value, two_digits in Hval. rewrite H1, H3, H4 in Hval.
    simpl in Hval. injection Hval as <- <-.
    unfold ascii_only in Hascii. rewrite !Forall_cons in Hascii.
    destruct Hascii as (A1 & _ & A3 & A4 & _).
    apply digit_value_inv in H3 as [? [[? ->]|?]]; [|lia].
    apply digit_value_inv in H4 as [? [[? ->]|?]]; [|lia].
    assert (minute_ok d3 = true) as ->.
    { unfold minute_ok. rewrite !andb_true_iff, !N.leb_le. lia. }
    by eexists.
Qed.

End Clock.

Section ShowtimeFacts.

Context {Element : Type} `{HtmlQuery Element}.
Variable nd_zeros : list N.

Lemma findall_from_matches p text : forall skip m,
  m ∈ findall_from nd_zeros p skip text -> is_match nd_zeros m.
Proof.
  induction text as [|c r IH]; intros skip m Hm; [by apply elem_of_nil in Hm|].
  cbn [findall_from] in Hm. destruct skip as [|k]; [|by eapply IH].
  destruct (match_time nd_zeros p (c :: r)) as [m'|] eqn:Hmatch; [|by eapply IH].
  apply elem_of_cons in Hm as [->|Hm]; [by exists p, (c :: r)|by eapply IH].
Qed.

Lemma re_search_matches p text m :
  re_search nd_zeros p text = Some m -> is_match nd_zeros m.
Proof.
  induction text as [|c r IH]; [done|]. cbn [re_search].
  destruct (match_time nd_zeros p (c :: r)) as [m'|] eqn:Hmatch; [|done].
  intros [= <-]. by exists p, (c :: r).
Qed.

Lemma add_time_valid times m :
  is_match nd_zeros m -> Forall (valid_clock nd_zeros) times ->
  Forall (valid_clock nd_zeros) (add_time nd_zeros times m).
Proof.
  intros (p & s & Hm) Hall. unfold add_time.
  destruct (strptime_hm nd_zeros (replace_dot_colon m)) as [hm|] eqn:Hparse; [|done].
  destruct (str_mem _ times); [done|].
  apply Forall_app. split; [done|]. apply Forall_singleton.
  eapply accepted_shape_valid; [by eapply match_time_shape|done].
Qed.

Lemma add_page_time_valid times m :
  is_match nd_zeros m -> Forall (valid_clock nd_zeros) times ->
  Forall (valid_clock nd_zeros) (add_page_time nd_zeros times m).
Proof.
  intros (p & s & Hm) Hall. unfold add_page_time.
  destruct (strptime_hm nd_zeros (replace_dot_colon m)) as [[h mi]|] eqn:Hparse; [|done].
  destruct (_ && _); [|done]. destruct (str_mem _ times); [done|].
  apply Forall_app. split; [done|]. apply Forall_singleton.
  eapply accepted_shape_valid; [by eapply match_time_shape|done].
Qed.

Lemma add_element_time_valid times elem :
  Forall (valid_clock nd_zeros) times ->
  Forall (valid_clock nd_zeros) (add_element_time nd_zeros times elem).
Proof.
  intros Hall. unfold add_element_time.
  destruct (re_search nd_zeros PatColonOrDot (get_text_strip elem)) as [m|] eqn:Hm;
    [|done].
  apply add_time_valid; [by eapply re_search_matches|done].
Qed.

Lemma fold_left_invariant {A B} (P : A -> Prop) (Q : B -> Prop) (f : A -> B -> A) l :
  (forall a b, Q b -> P a -> P (f a b)) ->
  Forall Q l -> forall a, P a -> P (fold_left f l a).
Proof.
  intros Hstep. induction 1 as [|b l Hb Hl IH]; intros a Ha; [done|].
  simpl. apply IH. by apply Hstep.
Qed.

Lemma add_time_NoDup times m : NoDup times -> NoDup (add_time nd_zeros times m).
Proof.
  intros Hnd. unfold add_time.
  destruct (strptime_hm nd_zeros (replace_dot_colon m)); [|done].
  unfold str_mem. case_bool_decide as Hin; [done|].
  apply NoDup_app. split; [done|]. split; [|apply NoDup_singleton].
  intros x Hx Hx'. apply list_elem_of_singleton in Hx' as ->. done.
Qed.

Lemma add_time_keeps times m s : s ∈ times -> s ∈ add_time nd_zeros times m.
Proof.
  intros Hs. unfold add_time.
  destruct (strptime_hm nd_zeros (replace_dot_colon m)); [|done].
  destruct (str_mem _ times); [done|]. apply elem_of_app. by left.
Qed.

Lemma add_time_adds times m :
  is_Some (strptime_hm nd_zeros (replace_dot_colon m)) ->
  replace_dot_colon m ∈ add_time nd_zeros times m.
Proof.
  intros [hm Hparse]. unfold add_time. rewrite Hparse.
  unfold str_mem. case_bool_decide as Hin; [done|].
  apply elem_of_app. right. by apply list_elem_of_singleton.
Qed.

Lemma fold_add_time_keeps ms : forall times s,
  s ∈ times -> s ∈ fold_left (add_time nd_zeros) ms times.
Proof.
  induction ms as [|m ms IH]; intros times s Hs; [done|].
  simpl. apply IH. by apply add_time_keeps.
Qed.

Lemma fold_add_time_adds ms : forall times m,
  m ∈ ms -> is_Some (strptime_hm nd_zeros (replace_dot_colon m)) ->
  replace_dot_colon m ∈ fold_left (add_time nd_zeros) ms times.
Proof.
  induction ms as [|m' ms IH]; intros times m Hm Hparse; [by apply elem_of_nil in Hm|].
  simpl. apply elem_of_cons in Hm as [->|Hm]; [|by apply IH].
  apply fold_add_time_keeps. by apply add_time_adds.
Qed.

Lemma listing_matches text :
  Forall (is_match nd_zeros)
    (flat_map (fun p => re_findall nd_zeros p text) [PatColonOrDot; PatColon; PatDot]).
Proof.
  apply Forall_forall. intros m Hm. apply list_elem_of_In, in_flat_map in Hm.
  destruct Hm as (p & _ & Hm). apply list_elem_of_In in Hm.
  by eapply findall_from_matches.
Qed.

(** C3 (amended): a showtime list holds, once each, the matches that read
    as a time of the 24-hour clock, written as matched with every dot
    replaced by a colon (a one-digit hour stays one digit); nothing else
    gets in, so a string such as 25:61 never does. *)
Theorem C3_times_are_clock_times_as_matched :
  (forall text s, s ∈ listing_times nd_zeros text -> valid_clock nd_zeros s)
  /\ (forall text, NoDup (listing_times nd_zeros text))
  /\ (forall text p m,
        m ∈ re_findall nd_zeros p text -> ascii_only m ->
        valid_clock nd_zeros (replace_dot_colon m) ->
        replace_dot_colon m ∈ listing_times nd_zeros text
        /\ length (replace_dot_colon m) = length m)
  /\ (forall soup s, s ∈ parse_showtimes_from_page nd_zeros soup -> valid_clock nd_zeros s)
  /\ (forall text, u "25:61" ∉ listing_times nd_zeros text)
  /\ (forall soup, u "25:61" ∉ parse_showtimes_from_page nd_zeros soup).
Proof.
  assert (Hlisting : forall text,
            Forall (valid_clock nd_zeros) (listing_times nd_zeros text)).
  { intros text. unfold listing_times.
    apply (fold_left_invariant _ (is_match nd_zeros)); [|apply listing_matches|constructor].
    intros times m Hm Hall. by apply add_time_valid. }
  assert (Hdetail : forall soup,
            Forall (valid_clock nd_zeros) (parse_showtimes_from_page nd_zeros soup)).
  { intros soup. unfold parse_showtimes_from_page.
    assert (Hsel : Forall (valid_clock nd_zeros)
              (fold_left (add_element_time nd_zeros)
                 (flat_map (select soup) time_selectors) [])).
    { apply (fold_left_invariant _ (fun _ => True)); [| |constructor].
      - intros times elem _ Hall. by apply add_element_time_valid.
      - apply Forall_forall. done. }
    destruct (fold_left (add_element_time nd_zeros) _ []) as [|t ts]; [|done].
    apply (fold_left_invariant _ (is_match nd_zeros)); [| |constructor].
    - intros times m Hm Hall. by apply add_page_time_valid.
    - apply Forall_forall. intros m Hm. apply list_elem_of_In, in_flat_map in Hm.
      destruct Hm as (p & _ & Hm). apply list_elem_of_In in Hm.
      by eapply findall_from_matches. }
  assert (Hbad : ~ valid_clock nd_zeros (u "25:61")).
  { intros (h & mi & Hval & Hh & Hmi). vm_compute in Hval.
    injection Hval as <- <-. lia. }
  split; [|split; [|split; [|split; [|split]]]].
  - intros text s Hs. pose proof (Hlisting text) as Hall.
    rewrite Forall_forall in Hall. by apply Hall.
  - intros text. unfold listing_times.
    apply (fold_left_invariant _ (fun _ => True)); [| |constructor].
    + intros times m _ Hnd. by apply add_time_NoDup.
    + apply Forall_forall. done.
  - intros text p m Hm Hascii Hvalid. split; [|apply length_map].
    unfold listing_times. apply fold_add_time_adds.
    + apply list_elem_of_In, in_flat_map. exists p. split.
      * destruct p; simpl; tauto.
      * by apply list_elem_of_In.
    + destruct (findall_from_matches _ _ _ _ Hm) as (p' & s & Hmatch).
      apply valid_shape_accepted; [by eapply match_time_shape| |done].
      unfold ascii_only, replace_dot_colon in *. apply Forall_fmap.
      eapply Forall_impl; [exact Hascii|]. intros c Hc. simpl.
      simpl in Hc. destruct (c =? 46); lia.
  - intros soup s Hs. pose proof (Hdetail soup) as Hall.
    rewrite Forall_forall in Hall. by apply Hall.
  - intros text Hin. apply Hbad. pose proof (Hlisting text) as Hall.
    rewrite Forall_forall in Hall. by apply Hall.
  - intros soup Hin. apply Hbad. pose proof (Hdetail soup) as Hall.
    rewrite Forall_forall in Hall. by apply Hall.
Qed.

End ShowtimeFacts.

Local Open Scope Z_scope.

(** * String order *)

Lemma str_lt_irrefl a : str_lt a a = false.
Proof.
  induction a as [|x a IH]; [done|]. simpl.
  rewrite N.ltb_irrefl, N.eqb_refl, IH. done.
Qed.

Lemma str_lt_asym a b : str_lt a b = true -> str_lt b a = false.
Proof.
  revert b. induction a as [|x a IH]; intros [|y b]; simpl; try done.
  intros Hlt. apply orb_true_iff in Hlt as [Hlt | Hlt].
  - apply N.ltb_lt in Hlt.
    destruct (N.ltb_spec y x); [lia|]. destruct (N.eqb_spec y x); [lia|]. done.
  - apply andb_true_iff in Hlt as [Heq Hlt]. apply N.eqb_eq in Heq as ->.
    rewrite N.ltb_irrefl, N.eqb_refl. simpl. by apply IH.
Qed.

Lemma str_lt_trans a b c : str_lt a b = true -> str_lt b c = true -> str_lt a c = true.
Proof.
  revert b c. induction a as [|x a IH]; intros [|y b] [|z c]; simpl; try done.
  intros H1 H2.
  apply orb_true_iff in H1 as [H1 | H1]; apply orb_true_iff in H2 as [H2 | H2];
    apply orb_true_iff.
  - apply N.ltb_lt in H1, H2. left. apply N.ltb_lt. lia.
  - apply andb_true_iff in H2 as [Heq H2]. apply N.eqb_eq in Heq as <-. by left.
  - apply andb_true_iff in H1 as [Heq H1]. apply N.eqb_eq in Heq as ->. by left.
  - apply andb_true_iff in H1 as [Heq1 H1]. apply andb_true_iff in H2 as [Heq2 H2].
    apply N.eqb_eq in Heq1 as ->. apply N.eqb_eq in Heq2 as ->.
    right. rewrite N.eqb_refl. simpl. by apply (IH b c).
Qed.

Lemma str_lt_total a b : str_lt a b = false -> str_lt b a = false -> a = b.
Proof.
  revert b. induction a as [|x a IH]; intros [|y b]; simpl; try done.
  intros H1 H2.
  apply orb_false_iff in H1 as [H1 H1']. apply orb_false_iff in H2 as [H2 H2'].
  apply N.ltb_ge in H1, H2. assert (x = y) as -> by lia.
  rewrite N.eqb_refl in H1', H2'. simpl in *. f_equal. by apply IH.
Qed.

Global Instance str_le_total : Total str_le.
Proof.
  intros a b. unfold str_le.
  destruct (str_lt b a) eqn:Hba; [right; by apply str_lt_asym|by left].
Qed.

Global Instance str_le_trans : Transitive str_le.
Proof.
  intros a b c. unfold str_le. intros Hab Hbc.
  destruct (str_lt c a) eqn:Hca; [|done].
  destruct (str_lt b c) eqn:Hcb.
  - by rewrite (str_lt_trans b c a) in Hab.
  - assert (b = c) as -> by (by apply str_lt_total). congruence.
Qed.

Global Instance str_le_antisym : AntiSymm (=) str_le.
Proof. intros a b Hab Hba. by apply str_lt_total. Qed.

(** * Merged showtimes *)

Lemma merge_times_elem_of ts ds s : s ∈ merge_times ts ds <-> s ∈ ts \/ s ∈ ds.
Proof.
  unfold merge_times. rewrite merge_sort_Permutation, elem_of_elements.
  rewrite elem_of_list_to_set, elem_of_app. done.
Qed.

Lemma merge_times_NoDup ts ds : NoDup (merge_times ts ds).
Proof. unfold merge_times. rewrite merge_sort_Permutation. apply NoDup_elements. Qed.

Lemma merge_times_sorted ts ds : StronglySorted str_le (merge_times ts ds).
Proof. unfold merge_times. apply StronglySorted_merge_sort; apply _. Qed.

Lemma strictly_sorted l :
  NoDup l -> StronglySorted str_le l ->
  StronglySorted (fun a b => str_lt a b = true) l.
Proof.
  induction 2 as [|x l Hl IH Hx]; constructor.
  - apply IH. by eapply NoDup_cons_1_2.
  - apply Forall_forall. intros y Hy.
    rewrite Forall_forall in Hx. specialize (Hx y Hy). unfold str_le in Hx.
    destruct (str_lt x y) eqn:Hxy; [done|].
    assert (x = y) as -> by (by apply str_lt_total).
    apply NoDup_cons_1_1 in H. done.
Qed.

Section EnrichFacts.

Context {Element : Type} `{HtmlQuery Element}.
Variable env : Env Element.
Variable cfg : Config.
Variable nd_zeros : list N.
Variable py_lower : pystr -> pystr.

(** C10: when the detail page gives at least one showtime, the movie's
    times become the union of the listing times and the detail times,
    without repetition, in increasing string order; the first entry is the
    smallest string. *)
Theorem C10_times_become_sorted_union movie w w' found_countries found_date detailed_times :
  SKIP_DETAILS cfg = false ->
  is_Some (url_given (url movie)) ->
  parse_movie_details_and_schedule env cfg nd_zeros py_lower (url movie) w
  = (Return (found_countries, found_date, detailed_times), w') ->
  detailed_times <> [] ->
  let merged := merge_times (times movie) detailed_times in
  enrich env cfg nd_zeros py_lower movie w
  = (Return (mkMovie (title movie) (url movie) merged found_countries found_date), w')
  /\ (forall s, s ∈ merged <-> s ∈ times movie \/ s ∈ detailed_times)
  /\ NoDup merged
  /\ StronglySorted (fun a b => str_lt a b = true) merged
  /\ (forall first s, head merged = Some first -> s ∈ merged -> str_lt s first = false).
Proof.
  intros Hskip Hurl Hdetails Hne merged. split; [|split; [|split; [|split]]].
  - unfold enrich. rewrite Hskip.
    rewrite bool_decide_eq_true_2 by done. cbn [negb andb].
    unfold bind. rewrite Hdetails.
    destruct detailed_times as [|d ds]; [done|]. reflexivity.
  - apply merge_times_elem_of.
  - apply merge_times_NoDup.
  - apply strictly_sorted; [apply merge_times_NoDup|apply merge_times_sorted].
  - intros first s Hhead Hs.
    pose proof (merge_times_sorted (times movie) detailed_times) as Hsorted.
    fold merged in Hsorted. destruct merged as [|x l]; [done|].
    injection Hhead as ->. apply StronglySorted_inv in Hsorted as [_ Hall].
    apply elem_of_cons in Hs as [->|Hs]; [apply str_lt_irrefl|].
    rewrite Forall_forall in Hall. by apply Hall.
Qed.

End EnrichFacts.

(** * Merging pages *)

Lemma merge_fold_list page : forall acc (seen : gset pystr),
  (forall t, t ∈ seen <-> t ∈ map title acc) ->
  (fold_left merge_step page (acc, seen)).1 = merge_list acc page.
Proof.
  induction page as [|m page IH]; intros acc seen Hseen; [done|].
  unfold merge_list. simpl. unfold merge_step at 2. simpl.
  destruct (decide (title m ∈ seen)) as [Hin|Hin];
    destruct (decide (title m ∈ map title acc)) as [Hin'|Hin'];
    try (exfalso; apply Hseen in Hin || apply Hseen in Hin'; done).
  - by apply IH.
  - apply IH. intros t. rewrite elem_of_union, elem_of_singleton, map_app, elem_of_app.
    rewrite Hseen. simpl. rewrite list_elem_of_singleton. done.
Qed.

Lemma merge_page_list acc page : merge_page acc page = merge_list acc page.
Proof. unfold merge_page. apply merge_fold_list. intros t. apply elem_of_list_to_set. Qed.

Lemma merge_list_app acc p1 p2 :
  merge_list acc (p1 ++ p2) = merge_list (merge_list acc p1) p2.
Proof. unfold merge_list. apply fold_left_app. Qed.

Lemma merge_pages_concat pages : forall acc,
  fold_left merge_page pages acc = merge_list acc (concat pages).
Proof.
  induction pages as [|p pages IH]; intros acc; [done|].
  simpl. rewrite IH, merge_page_list, merge_list_app. done.
Qed.

Lemma merge_list_cons acc x page :
  merge_list acc (x :: page)
  = merge_list (if decide (title x ∈ map title acc) then acc else acc ++ [x]) page.
Proof. reflexivity. Qed.

Lemma merge_list_NoDup page : forall acc,
  NoDup (map title acc) -> NoDup (map title (merge_list acc page)).
Proof.
  induction page as [|m page IH]; intros acc Hacc; [done|].
  rewrite merge_list_cons. destruct (decide _) as [Hin|Hin]; apply IH; [done|].
  rewrite map_app. simpl. apply NoDup_app. split; [done|]. split.
  - intros t Ht Hm. apply list_elem_of_singleton in Hm as ->. done.
  - apply NoDup_singleton.
Qed.

Lemma merge_list_acc page : forall acc m, m ∈ acc -> m ∈ merge_list acc page.
Proof.
  induction page as [|x page IH]; intros acc m Hm; [done|].
  rewrite merge_list_cons. destruct (decide _); apply IH; [done|].
  apply elem_of_app. by left.
Qed.

Lemma merge_list_titles page : forall acc m,
  m ∈ page -> title m ∈ map title (merge_list acc page).
Proof.
  induction page as [|x page IH]; intros acc m Hm; [by apply elem_of_nil in Hm|].
  apply elem_of_cons in Hm as [->|Hm]; [|by apply IH].
  rewrite merge_list_cons. destruct (decide _) as [Hin|Hin].
  - apply list_elem_of_fmap in Hin as (y & Hy & Hin).
    apply list_elem_of_fmap. exists y. split; [done|]. by apply merge_list_acc.
  - apply list_elem_of_fmap. exists x. split; [done|].
    apply merge_list_acc. apply elem_of_app. right. by apply list_elem_of_singleton.
Qed.

Lemma merge_list_sublist page : forall acc,
  exists new, merge_list acc page = acc ++ new /\ (new `sublist_of` page).
Proof.
  induction page as [|x page IH]; intros acc.
  - exists []. by rewrite app_nil_r.
  - rewrite merge_list_cons. destruct (decide _) as [Hin|Hin].
    + destruct (IH acc) as (new & -> & Hsub). exists new. split; [done|].
      by apply sublist_cons.
    + destruct (IH (acc ++ [x])) as (new & Heq & Hsub). exists (x :: new). split.
      * rewrite Heq, <- app_assoc. done.
      * by apply sublist_skip.
Qed.

Lemma merge_list_first page : forall acc m,
  m ∈ merge_list acc page ->
  m ∈ acc \/
  exists before after,
    page = before ++ m :: after /\ (title m ∉ map title acc) /\ (title m ∉ map title before).
Proof.
  induction page as [|x page IH]; intros acc m Hm; [by left|].
  rewrite merge_list_cons in Hm. destruct (decide _) as [Hin|Hin].
  - apply IH in Hm as [Hm | (before & after & -> & Hacc & Hbefore)]; [by left|].
    right. exists (x :: before), after. split; [done|]. split; [done|].
    simpl. intros Hc. apply elem_of_cons in Hc as [Hc|Hc]; [|done].
    rewrite Hc in Hacc. done.
  - apply IH in Hm as [Hm | (before & after & -> & Hacc & Hbefore)].
    + apply elem_of_app in Hm as [Hm|Hm]; [by left|].
      apply list_elem_of_singleton in Hm as ->. right. exists [], page.
      split; [done|]. split; [done|]. simpl. apply not_elem_of_nil.
    + right. exists (x :: before), after. split; [done|].
      rewrite map_app, elem_of_app in Hacc. simpl in Hacc. split; [tauto|].
      simpl. intros Hc. apply elem_of_cons in Hc as [Hc|Hc]; [|done].
      apply Hacc. right. rewrite Hc. by apply list_elem_of_singleton.
Qed.

(** C6: merging any sequence of pages keeps every title once, in the order
    the titles are first seen, and the record kept for a title is its first
    occurrence. *)
Theorem C6_merge_keeps_first_occurrences (pages : list (list Movie)) :
  let merged := fold_left merge_page pages [] in
  let seen := concat pages in
  NoDup (map title merged)
  /\ (forall m, m ∈ seen -> title m ∈ map title merged)
  /\ (merged `sublist_of` seen)
  /\ (forall m, m ∈ merged ->
        exists before after, seen = before ++ m :: after /\ title m ∉ map title before).
Proof.
  intros merged seen. subst merged seen. rewrite merge_pages_concat.
  split; [|split; [|split]].
  - apply merge_list_NoDup. constructor.
  - intros m Hm. by apply merge_list_titles.
  - destruct (merge_list_sublist (concat pages) []) as (new & -> & Hsub). done.
  - intros m Hm. apply merge_list_first in Hm as [Hm | (before & after & ? & _ & ?)].
    + by apply elem_of_nil in Hm.
    + by exists before, after.
Qed.

(** * Facts about [strip] *)

Lemma lstrip_head s c r : lstrip s = c :: r -> py_isspace c = false.
Proof.
  induction s as [|x s IH]; [done|]. simpl.
  destruct (py_isspace x) eqn:Hx; [done|]. by intros [= <- _].
Qed.

Lemma lstrip_clean c r : py_isspace c = false -> lstrip (c :: r) = c :: r.
Proof. intros Hc. simpl. by rewrite Hc. Qed.

Lemma lstrip_snoc s c :
  py_isspace c = false -> exists z, lstrip (s ++ [c]) = z ++ [c].
Proof.
  intros Hc. induction s as [|x s IH].
  - exists []. simpl. by rewrite Hc.
  - simpl. destruct (py_isspace x); [done|]. by exists (x :: s).
Qed.

Lemma rstrip_last s c : last (rstrip s) = Some c -> py_isspace c = false.
Proof.
  unfold rstrip. intros Hlast. apply last_Some in Hlast as [l Hl].
  apply (f_equal (@rev N)) in Hl. rewrite rev_involutive, rev_app_distr in Hl.
  simpl in Hl. by eapply lstrip_head.
Qed.

Lemma rstrip_cons c r :
  py_isspace c = false -> exists z, rstrip (c :: r) = c :: z.
Proof.
  intros Hc. unfold rstrip. simpl.
  destruct (lstrip_snoc (rev r) c Hc) as [z ->].
  rewrite rev_app_distr. simpl. by eexists.
Qed.

Lemma strip_clean_ends s : clean_ends (strip s).
Proof.
  unfold strip. split.
  - intros c. destruct (lstrip s) as [|x r] eqn:Hs; [done|].
    pose proof (lstrip_head _ _ _ Hs) as Hx.
    destruct (rstrip_cons x r Hx) as [z ->]. by intros [= <-].
  - apply rstrip_last.
Qed.

Lemma clean_ends_strip s : clean_ends s -> strip s = s.
Proof.
  intros [Hhead Hlast]. unfold strip.
  destruct s as [|c r]; [done|].
  rewrite lstrip_clean by (by apply Hhead).
  unfold rstrip.
  destruct (last (c :: r)) as [d|] eqn:Hd; [|by apply last_None in Hd].
  pose proof (Hlast d eq_refl) as Hspace.
  apply last_Some in Hd as [l ->].
  rewrite rev_app_distr. simpl. rewrite Hspace.
  change (d :: rev l) with (rev [d] ++ rev l).
  rewrite <- rev_app_distr. apply rev_involutive.
Qed.

Lemma clean_ends_concat (l : list pystr) :
  Forall (fun s => s <> [] /\ clean_ends s) l -> clean_ends (concat l).
Proof.
  induction 1 as [|s l [Hne [Hhead Hlast]] Hl [IHhead IHlast]]; [done|].
  simpl. split.
  - intros c. destruct s as [|x r]; [done|]. simpl. intros [= <-]. by apply Hhead.
  - intros c. destruct (concat l) as [|y t] eqn:Hc.
    + rewrite app_nil_r. apply Hlast.
    + rewrite last_app. simpl. intros Hl'. apply IHlast.
      destruct (last (y :: t)) eqn:Hy; [done|].
      by apply last_None in Hy.
Qed.

Section TitleFacts.

Context {Element : Type} `{HtmlQuery Element}.
Variable nd_zeros : list N.
Variable urljoin : pystr -> pystr -> pystr.

Lemma get_text_strip_clean (e : Element) : clean_ends (get_text_strip e).
Proof.
  unfold get_text_strip. apply clean_ends_concat, Forall_forall.
  intros s Hs. apply list_elem_of_filter in Hs as [Hne Hs]. split; [done|].
  apply list_elem_of_In, in_map_iff in Hs as (x & <- & _). apply strip_clean_ends.
Qed.

Lemma probe_title_text element sels : forall init t,
  probe_title element sels init = Some t ->
  init = Some t \/ exists title_elem, t = get_text_strip title_elem.
Proof.
  induction sels as [|sel rest IH]; intros init t Ht; [by left|].
  cbn [probe_title] in Ht. destruct (select_one element sel) as [title_elem|].
  - destruct (usable_title _).
    + injection Ht as <-. right. by eexists.
    + apply IH in Ht as [[= <-]|Ht]; [right; by eexists|by right].
  - by apply IH.
Qed.

(** X3: every record of the listing extractor has a non-empty title that
    [strip] leaves unchanged; on the link-scanning path the title is longer
    than three characters. *)
Lemma listing_titles_are_stripped soup m :
  m ∈ extract_movie_data_from_schedule nd_zeros urljoin soup ->
  title m <> [] /\ strip (title m) = title m
  /\ (first_matching soup movie_selectors = [] -> (3 < length (title m))%nat).
Proof.
  unfold extract_movie_data_from_schedule.
  destruct (first_matching soup movie_selectors) as [|e es] eqn:Hfirst.
  - intros Hm. apply list_elem_of_omap in Hm as (link & _ & Hm).
    unfold movie_of_link in Hm.
    destruct (usable_title (get_text_strip link.1)) eqn:Hok; [|done].
    injection Hm as <-. simpl. unfold usable_title in Hok.
    apply andb_true_iff in Hok as [Hne Hlen]. apply Nat.ltb_lt in Hlen.
    split; [|split; [|done]].
    + intros Heq. rewrite Heq in Hlen. simpl in Hlen. lia.
    + apply clean_ends_strip, get_text_strip_clean.
  - intros Hm. apply list_elem_of_omap in Hm as (container & _ & Hm).
    unfold movie_of_container in Hm.
    destruct (probe_title container title_selectors None) as [[|c t]|] eqn:Hprobe;
      try done.
    injection Hm as <-. simpl. split; [done|]. split; [|done].
    apply probe_title_text in Hprobe as [|[title_elem ->]]; [done|].
    apply clean_ends_strip, get_text_strip_clean.
Qed.

End TitleFacts.

(** * Facts about the pagination controller *)

Section ControllerFacts.

Context {Element : Type} `{HtmlQuery Element}.
Variable env : Env Element.
Variable cfg : Config.
Variable nd_zeros : list N.
Variable urljoin : pystr -> pystr -> pystr.

(** C7 (amended): with a positive limit, as soon as the collection merged
    from a fetched page holds at least [max_movies] records, the controller
    returns its first [max_movies] records, in discovery order, and does
    nothing more: the world is the one the fetch of that page left. *)
Theorem C7_positive_limit_truncates_and_stops
    fuel base_url current_page all_movies_data w max_movies soup w1 :
  MAX_MOVIES cfg = Some max_movies ->
  0 < max_movies ->
  current_page <= MAX_PAGES cfg ->
  get_soup env cfg (page_address base_url current_page) MAX_RETRIES Page w
  = (Return (Some soup), w1) ->
  let page_movies := extract_movie_data_from_schedule nd_zeros urljoin soup in
  let merged := merge_page all_movies_data page_movies in
  page_movies <> [] ->
  max_movies <= Z.of_nat (length merged) ->
  pages_loop env cfg nd_zeros urljoin (S fuel) base_url current_page all_movies_data w
  = (Return (take (Z.to_nat max_movies) merged), w1)
  /\ length (take (Z.to_nat max_movies) merged) = Z.to_nat max_movies
  /\ take (Z.to_nat max_movies) merged `prefix_of` merged.
Proof.
  intros Hmax Hpos Hpage Hget page_movies merged Hne Hlen.
  split; [|split].
  - cbn [pages_loop].
    destruct (Z.leb_spec current_page (MAX_PAGES cfg)) as [_|]; [|lia]. cbn [negb].
    unfold page_address in Hget. unfold bind at 1. rewrite Hget.
    fold page_movies. destruct page_movies as [|m ms] eqn:Hpm; [done|].
    fold merged. unfold limit_reached. rewrite Hmax.
    destruct (Z.eqb_spec max_movies 0) as [|_]; [lia|].
    destruct (Z.leb_spec max_movies (Z.of_nat (length merged))) as [_|]; [|lia].
    cbn [negb andb default]. unfold slice_to, id.
    destruct (Z.leb_spec 0 max_movies) as [_|]; [|lia]. reflexivity.
  - rewrite length_take. lia.
  - apply prefix_take.
Qed.

Lemma pages_loop_bounded max_movies :
  MAX_MOVIES cfg = Some max_movies -> 0 < max_movies ->
  forall fuel base_url current_page all_movies_data w result w',
    Z.of_nat (length all_movies_data) < max_movies ->
    pages_loop env cfg nd_zeros urljoin fuel base_url current_page all_movies_data w
    = (Return result, w') ->
    Z.of_nat (length result) <= max_movies.
Proof.
  intros Hmax Hpos. induction fuel as [|fuel IH];
    intros base_url current_page all_movies_data w result w' Hall Hrun.
  - injection Hrun as <- <-. lia.
  - cbn [pages_loop] in Hrun.
    destruct (negb (current_page <=? MAX_PAGES cfg)); [injection Hrun as <- <-; lia|].
    unfold bind at 1 in Hrun.
    destruct (get_soup env cfg _ MAX_RETRIES Page w) as [[[soup|]|e] w1];
      [|injection Hrun as <- <-; lia|done].
    destruct (extract_movie_data_from_schedule nd_zeros urljoin soup) as [|m ms];
      [injection Hrun as <- <-; lia|].
    set (merged := merge_page all_movies_data (m :: ms)) in *.
    unfold limit_reached in Hrun. rewrite Hmax in Hrun.
    destruct (Z.eqb_spec max_movies 0) as [|_]; [lia|]. cbn [negb andb default] in Hrun.
    destruct (Z.leb_spec max_movies (Z.of_nat (length merged))).
    + injection Hrun as <- <-. unfold slice_to, id.
      destruct (Z.leb_spec 0 max_movies) as [_|]; [|lia]. rewrite length_take. lia.
    + unfold bind at 1 in Hrun.
      match type of Hrun with context [match ?m w1 with _ => _ end] =>
        destruct (m w1) as [[[|]|e] w2] end; [|injection Hrun as <- <-; lia|done].
      unfold bind at 1 in Hrun. simpl in Hrun. by eapply IH.
Qed.

(** X1: with a positive limit, the collection a run returns never holds
    more records than the limit. *)
Lemma parse_all_schedule_pages_bounded max_movies base_url w result w' :
  MAX_MOVIES cfg = Some max_movies -> 0 < max_movies ->
  parse_all_schedule_pages env cfg nd_zeros urljoin base_url w = (Return result, w') ->
  Z.of_nat (length result) <= max_movies.
Proof.
  intros Hmax Hpos. unfold parse_all_schedule_pages.
  apply pages_loop_bounded; [done|done|simpl; lia].
Qed.

End ControllerFacts.

(** * Date order *)

Global Instance date_le_total : Total date_le.
Proof. intros [y1 m1 d1] [y2 m2 d2]. unfold date_le. simpl. lia. Qed.

Global Instance date_le_trans : Transitive date_le.
Proof. intros [y1 m1 d1] [y2 m2 d2] [y3 m3 d3]. unfold date_le. simpl. lia. Qed.

Global Instance date_le_antisym : AntiSymm (=) date_le.
Proof.
  intros [y1 m1 d1] [y2 m2 d2]. unfold date_le. simpl. intros H1 H2.
  f_equal; lia.
Qed.

(** The head of a sorted list is its least element. *)
Lemma head_merge_sort_least {A} (R : relation A) `{!RelDecision R}
    `{!Total R} `{!Transitive R} `{!AntiSymm (=) R} (l : list A) (x : A) :
  head (merge_sort R l) = Some x <-> x ∈ l /\ forall y, y ∈ l -> R x y.
Proof.
  pose proof (StronglySorted_merge_sort R l) as Hsorted.
  pose proof (merge_sort_Permutation R l) as Hperm.
  destruct (merge_sort R l) as [|z s] eqn:Hs.
  - apply Permutation_nil_l in Hperm as <-. split; [done|].
    intros [Hx _]. by apply elem_of_nil in Hx.
  - apply StronglySorted_inv in Hsorted as [_ Hall]. rewrite Forall_forall in Hall.
    assert (Hleast : forall y, y ∈ l -> R z y).
    { intros y Hy. rewrite <- Hperm in Hy. apply elem_of_cons in Hy as [->|Hy].
      - destruct (total R z z); done.
      - by apply Hall. }
    assert (Hz : z ∈ l) by (rewrite <- Hperm; apply elem_of_cons; by left).
    simpl. split.
    + intros [= <-]. done.
    + intros [Hx Hmin]. f_equal. apply (anti_symm R); [by apply Hleast|by apply Hmin].
Qed.

Lemma length_omap_le {A B} (f : A -> option B) (l : list A) :
  (length (omap f l) <= length l)%nat.
Proof.
  induction l as [|a l IH]; [done|]. cbn [omap list_omap].
  destruct (f a); simpl in *; lia.
Qed.

Section CalendarFacts.

Context {Element : Type} `{HtmlQuery Element}.
Variable nd_zeros : list N.

Lemma date_of_link_spec now link d :
  date_of_link nd_zeros now link = Some d <->
  exists day_elem n,
    select_one link (ByClass "YCVqY") = Some day_elem
    /\ py_int nd_zeros (get_text_strip day_elem) = Some n
    /\ py_date (month_year (default [] (get_attr link "aria-label")) now).2
               (month_year (default [] (get_attr link "aria-label")) now).1 n = Some d.
Proof.
  unfold date_of_link.
  destruct (select_one link (ByClass "YCVqY")) as [day_elem|]; [|split; [done|]].
  - destruct (month_year _ now) as [m y]. simpl.
    destruct (py_int nd_zeros (get_text_strip day_elem)) as [n|] eqn:Hint.
    + split; [intros Hd; by exists day_elem, n|].
      intros (? & ? & [= <-] & Hn & Hd). rewrite Hint in Hn. by injection Hn as <-.
    + split; [done|]. intros (? & ? & [= <-] & Hn & _). by rewrite Hint in Hn.
  - by intros (? & ? & ? & _).
Qed.

Lemma length_omap_filter {A B} (f : A -> option B) (l : list A) :
  length (omap f l) = length (filter (fun a => is_Some (f a)) l).
Proof.
  induction l as [|a l IH]; [done|]. cbn [omap list_omap]. rewrite filter_cons.
  destruct (f a) as [b|] eqn:Hf.
  - rewrite decide_True by (by eexists). simpl. by rewrite IH.
  - rewrite decide_False by (by intros [? ?]). done.
Qed.

(** The date a link gives, in terms of what the link carries: it has a day
    element whose text reads as the number [n], the date is day [n] of the
    month and year its label names, and that is a date of the calendar. *)
Lemma date_of_link_built now link d :
  date_of_link nd_zeros now link = Some d <->
  exists day_elem n,
    select_one link (ByClass "YCVqY") = Some day_elem
    /\ py_int nd_zeros (get_text_strip day_elem) = Some n
    /\ valid_date d /\ day d = n
    /\ (month d, year d)
       = let label := default [] (get_attr link "aria-label") in
         if str_in (u "октября") label then (10, 2025)
         else if str_in (u "ноября") label then (11, 2025)
         else if str_in (u "декабря") label then (12, 2025)
         else (month (dt_date now), year (dt_date now)).
Proof.
  rewrite date_of_link_spec. cbv zeta.
  change (if str_in (u "октября") (default [] (get_attr link "aria-label"))
          then (10, 2025)
          else if str_in (u "ноября") (default [] (get_attr link "aria-label"))
               then (11, 2025)
               else if str_in (u "декабря") (default [] (get_attr link "aria-label"))
                    then (12, 2025)
                    else (month (dt_date now), year (dt_date now)))
    with (month_year (default [] (get_attr link "aria-label")) now).
  destruct (month_year (default [] (get_attr link "aria-label")) now) as [m y].
  cbn [fst snd].
  split; intros (day_elem & n & Hsel & Hint & Hrest); exists day_elem, n;
    (split; [done|]); (split; [done|]).
  - apply py_date_spec in Hrest as [-> Hvalid]. done.
  - destruct Hrest as (Hvalid & Hday & [= Hm Hy]). apply py_date_spec.
    split; [|done]. destruct d as [y' m' d']. simpl in *. by subst.
Qed.

(** C9: the nearest show date is absent when no calendar widget is found;
    otherwise exactly one date is built per active link that carries a day
    number [n] for which day [n] of the month and year named by the link's
    label is a date of the calendar; the other links are left out; and the
    result is the earliest of the dates built (absent when there is
    none). *)
Theorem C9_nearest_show_date_is_earliest now soup :
  let found := find_calendar_widget soup calendar_selectors in
  (found = None -> parse_schedule_calendar nd_zeros now soup = None)
  /\ forall widget, found = Some widget ->
       let dates := available_dates nd_zeros now widget in
       (forall d, d ∈ dates <->
          exists link, link ∈ find_all_a_class widget "pdT6c"
                       /\ date_of_link nd_zeros now link = Some d)
       /\ (forall link d, date_of_link nd_zeros now link = Some d ->
             valid_date d /\
             exists day_elem n,
               select_one link (ByClass "YCVqY") = Some day_elem
               /\ py_int nd_zeros (get_text_strip day_elem) = Some n
               /\ day d = n)
       /\ (forall link d,
             date_of_link nd_zeros now link = Some d <->
             exists day_elem n,
               select_one link (ByClass "YCVqY") = Some day_elem
               /\ py_int nd_zeros (get_text_strip day_elem) = Some n
               /\ valid_date d /\ day d = n
               /\ (month d, year d)
                  = let label := default [] (get_attr link "aria-label") in
                    if str_in (u "октября") label then (10, 2025)
                    else if str_in (u "ноября") label then (11, 2025)
                    else if str_in (u "декабря") label then (12, 2025)
                    else (month (dt_date now), year (dt_date now)))
       /\ length dates
          = length (filter (fun link => is_Some (date_of_link nd_zeros now link))
                           (find_all_a_class widget "pdT6c"))
       /\ (length dates <= length (find_all_a_class widget "pdT6c"))%nat
       /\ (dates = [] -> parse_schedule_calendar nd_zeros now soup = None)
       /\ (forall d, parse_schedule_calendar nd_zeros now soup = Some d <->
             d ∈ dates /\ forall d', d' ∈ dates -> date_le d d').
Proof.
  intros found. subst found. unfold parse_schedule_calendar. split.
  - by intros ->.
  - intros widget Hw. rewrite Hw. cbv zeta.
    set (dates := available_dates nd_zeros now widget).
    split; [|split; [|split; [|split; [|split; [|split]]]]].
    + intros d. subst dates. unfold available_dates. rewrite list_elem_of_omap. done.
    + intros link d Hd. apply date_of_link_spec in Hd as (day_elem & n & Hsel & Hint & Hd).
      pose proof (py_date_well_formed _ _ _ _ Hd) as [Hvalid _]. split; [done|].
      exists day_elem, n. split; [done|]. split; [done|].
      unfold py_date in Hd. case_match; [|done]. by injection Hd as <-.
    + intros link d. apply date_of_link_built.
    + subst dates. unfold available_dates. apply length_omap_filter.
    + subst dates. unfold available_dates. apply length_omap_le.
    + by intros ->.
    + intros d. destruct dates as [|d0 ds] eqn:Hdates.
      * split; [done|]. intros [Hd _]. by apply elem_of_nil in Hd.
      * apply head_merge_sort_least; apply _.
Qed.

End CalendarFacts.

(** * The orchestrator *)

Section MainFacts.

Context {Element : Type} `{HtmlQuery Element}.
Variable env : Env Element.
Variable cfg : Config.
Variable nd_zeros : list N.
Variable urljoin : pystr -> pystr -> pystr.
Variable py_lower : pystr -> pystr.





(** * The materializer *)

Lemma excluded_false movie :
  (forall c, c ∈ countries movie -> c ∉ EXCLUDE_COUNTRIES cfg) ->
  existsb (fun country => str_mem country (EXCLUDE_COUNTRIES cfg)) (countries movie) = false.
Proof.
  intros Hno. apply not_true_is_false. intros Hex.
  apply existsb_exists in Hex as (c & Hin & Hmem).
  unfold str_mem in Hmem. apply bool_decide_eq_true in Hmem.
  apply (Hno c); [by apply list_elem_of_In|done].
Qed.

(** C8: a movie without a show date and without showtimes, none of whose
    countries is excluded, gives an event that begins tomorrow at 19:00 and
    ends two hours later; and every event produced ends two hours after it
    begins. *)
Theorem C8_fallback_event_and_duration now movie :
  well_formed (dt_date now) ->
  (forall d, nearest_show_date movie = Some d -> well_formed d) ->
  (nearest_show_date movie = None -> times movie = [] ->
   (forall c, c ∈ countries movie -> c ∉ EXCLUDE_COUNTRIES cfg) ->
   exists event,
     create_calendar_event cfg nd_zeros now movie = Some event
     /\ ev_begin event = mkdatetime (next_day (dt_date now)) 19 0 0 0
     /\ ev_end event = mkdatetime (next_day (dt_date now)) 21 0 0 0)
  /\ (forall event,
        create_calendar_event cfg nd_zeros now movie = Some event ->
        ev_end event = plus_two_hours (ev_begin event)
        /\ timestamp (ev_end event) = timestamp (ev_begin event) + two_hours).
Proof.
  intros Hnow Hshow. split.
  - intros Hnone Htimes Hcountries. unfold create_calendar_event.
    rewrite excluded_false by done. rewrite Hnone, Htimes. simpl.
    eexists. split; [reflexivity|]. split; reflexivity.
  - intros event. unfold create_calendar_event.
    destruct (existsb _ _); [done|].
    destruct (event_time nd_zeros (times movie)) as [h m].
    intros [= <-]. simpl. split; [reflexivity|].
    apply timestamp_plus_two_hours. simpl.
    destruct (nearest_show_date movie) as [d|]; [by apply Hshow|].
    by apply well_formed_next_day.
Qed.

End MainFacts.

(** * Requests and waits of the fetcher *)

Section FetcherRuns.

Context {Element : Type}.
Variable env : Env Element.
Variable cfg : Config.

(** One iteration of the attempt loop, by the answer it gets. *)
Lemma get_soup_loop_step rest attempt retries delay target rt w :
  get_soup_loop env cfg (S rest) attempt retries delay target rt w
  = let pre := if 1 <? attempt then [SleepJitter (BASE_DELAY cfg * 2)] else [] in
    let w1 := extend w (pre ++ [Get target]) in
    let again d sl := get_soup_loop env cfg rest (attempt + 1) retries d target rt
                        (extend w1 sl) in
    let wait s d := if s <? 0 then (Raise sleep_value_error, w1)
                    else again d [Sleep s] in
    match session_get env (history w ++ pre) target with
    | Response status body =>
        if status =? 429 then wait (delay * BACKOFF_FACTOR) (delay * BACKOFF_FACTOR)
        else if status =? 404 then (Return None, w1)
        else if status =? 403 then wait (delay * 2) (delay * 2)
        else if is_http_error status then
          (if attempt <? retries then wait delay (delay * BACKOFF_FACTOR)
           else (Return None, w1))
        else (Return (Some body), extend w1 [SleepJitter (base_delay_of cfg rt)])
    | RaiseTimeout =>
        if attempt <? retries then wait delay (delay * BACKOFF_FACTOR)
        else again delay []
    | RaiseRequestException =>
        if attempt <? retries then wait delay (delay * BACKOFF_FACTOR)
        else (Return None, w1)
    | RaiseOther e => (Raise e, w1)
    end.
Proof.
  cbv zeta. cbn [get_soup_loop].
  unfold bind, smart_delay, http_get, sleep, raise, do, ret, extend, base_delay_of.
  destruct (1 <? attempt); cbn [history calendar_ics app];
    rewrite ?app_nil_r;
    destruct (session_get env _ target) as [status body| | |e];
    repeat case_match; simplify_eq; cbn [history calendar_ics]; rewrite <- ?app_assoc;
    cbn [app]; rewrite ?app_nil_r; reflexivity.
Qed.

Lemma requests_only_app target h1 h2 :
  requests_only target h1 -> requests_only target h2 -> requests_only target (h1 ++ h2).
Proof. unfold requests_only. intros. by apply Forall_app. Qed.

Lemma requests_only_step (attempt : Z) target (sl : list action) :
  (forall t, Get t ∉ sl) ->
  requests_only target
    ((if 1 <? attempt then [SleepJitter (BASE_DELAY cfg * 2)] else [])
     ++ [Get target] ++ sl).
Proof.
  intros Hsl. unfold requests_only. apply Forall_app. split.
  - destruct (1 <? attempt); repeat constructor; done.
  - apply Forall_cons. split; [by intros t [= ->]|].
    apply Forall_forall. intros a Ha t ->. exfalso. by apply (Hsl t).
Qed.

Lemma count_gets_step (attempt : Z) target (sl : list action) :
  count_gets sl = 0%nat ->
  count_gets ((if 1 <? attempt then [SleepJitter (BASE_DELAY cfg * 2)] else [])
              ++ [Get target] ++ sl) = 1%nat.
Proof.
  intros Hsl. rewrite !count_gets_app, Hsl.
  by destruct (1 <? attempt).
Qed.

(** The trace of the attempt loop: at most one request per iteration, all
    to [target]; the file is not touched. *)
Lemma get_soup_loop_budget target rt remaining : forall attempt retries delay w,
  exists h,
    (get_soup_loop env cfg remaining attempt retries delay target rt w).2 = extend w h
    /\ (count_gets h <= remaining)%nat
    /\ requests_only target h.
Proof.
  induction remaining as [|rest IH]; intros attempt retries delay w.
  - exists []. cbn [get_soup_loop ret snd]. rewrite extend_nil.
    split; [done|]. split; [by apply Nat.le_refl|constructor].
  - rewrite get_soup_loop_step. cbv zeta.
    set (pre := if 1 <? attempt then [SleepJitter (BASE_DELAY cfg * 2)] else []).
    assert (Hstop : forall (o : outcome (option Element)) sl,
              count_gets sl = 0%nat -> (forall t, Get t ∉ sl) ->
              exists h, (o, extend (extend w (pre ++ [Get target])) sl).2 = extend w h
                        /\ (count_gets h <= S rest)%nat /\ requests_only target h).
    { intros o sl Hc Hsl. exists (pre ++ [Get target] ++ sl). cbn [snd].
      split; [rewrite extend_extend; by rewrite <- app_assoc|]. split.
      - subst pre. rewrite count_gets_step by done. lia.
      - by apply requests_only_step. }
    assert (Hagain : forall d sl,
              count_gets sl = 0%nat -> (forall t, Get t ∉ sl) ->
              exists h,
                (get_soup_loop env cfg rest (attempt + 1) retries d target rt
                   (extend (extend w (pre ++ [Get target])) sl)).2 = extend w h
                /\ (count_gets h <= S rest)%nat /\ requests_only target h).
    { intros d sl Hc Hsl.
      destruct (IH (attempt + 1) retries d (extend (extend w (pre ++ [Get target])) sl))
        as (h & -> & Hcount & Hreq).
      exists ((pre ++ [Get target] ++ sl) ++ h).
      split; [rewrite !extend_extend; by rewrite <- !app_assoc|]. split.
      - rewrite count_gets_app. subst pre. rewrite count_gets_step by done. lia.
      - apply requests_only_app; [by apply requests_only_step|done]. }
    assert (Hnil : forall t, Get t ∉ @nil action) by (intros t; apply not_elem_of_nil).
    assert (Hsleep : forall s t, Get t ∉ [Sleep s]).
    { intros s t Hin. apply list_elem_of_singleton in Hin. done. }
    assert (Hjit : forall s t, Get t ∉ [SleepJitter s]).
    { intros s t Hin. apply list_elem_of_singleton in Hin. done. }
    destruct (session_get env (history w ++ pre) target) as [status body| | |e];
      repeat case_match; try (by apply Hagain); try (by apply Hstop).
    all: rewrite <- (extend_nil (extend w (pre ++ [Get target]))); by apply Hstop.
Qed.

(** X4: a fetch makes at most [retries] requests, all of them to the
    address asked for, and leaves the output file as it was. *)
Theorem get_soup_request_budget target retries rt w :
  exists h,
    (get_soup env cfg target retries rt w).2 = extend w h
    /\ (count_gets h <= Z.to_nat retries)%nat
    /\ requests_only target h
    /\ calendar_ics (get_soup env cfg target retries rt w).2 = calendar_ics w.
Proof.
  unfold get_soup.
  destruct (get_soup_loop_budget target rt (Z.to_nat retries) 1 retries (BASE_DELAY cfg) w)
    as (h & Hw & Hcount & Hreq).
  exists h. rewrite Hw. done.
Qed.

Lemma get_soup_loop_success target rt remaining : forall attempt retries delay w doc w',
  get_soup_loop env cfg remaining attempt retries delay target rt w
  = (Return (Some doc), w') ->
  exists h status,
    w' = extend w (h ++ [Get target; SleepJitter (base_delay_of cfg rt)])
    /\ session_get env (history w ++ h) target = Response status doc
    /\ is_http_error status = false
    /\ status <> 429 /\ status <> 404 /\ status <> 403.
Proof.
  induction remaining as [|rest IH]; intros attempt retries delay w doc w' Hrun; [done|].
  rewrite get_soup_loop_step in Hrun. cbv zeta in Hrun.
  set (pre := if 1 <? attempt then [SleepJitter (BASE_DELAY cfg * 2)] else []) in *.
  assert (Hagain : forall d sl,
            get_soup_loop env cfg rest (attempt + 1) retries d target rt
              (extend (extend w (pre ++ [Get target])) sl) = (Return (Some doc), w') ->
            exists h status,
              w' = extend w (h ++ [Get target; SleepJitter (base_delay_of cfg rt)])
              /\ session_get env (history w ++ h) target = Response status doc
              /\ is_http_error status = false
              /\ status <> 429 /\ status <> 404 /\ status <> 403).
  { intros d sl Hrest. apply IH in Hrest as (h & status & -> & Hget & Hok).
    exists ((pre ++ [Get target] ++ sl) ++ h), status.
    rewrite !extend_extend, <- !app_assoc. split; [done|].
    split; [|done]. rewrite <- Hget. unfold extend. simpl.
    by rewrite <- !app_assoc. }
  destruct (session_get env (history w ++ pre) target) as [status body| | |e] eqn:Hget.
  - destruct (Z.eqb_spec status 429); [case_match; [done|by eapply Hagain]|].
    destruct (Z.eqb_spec status 404); [done|].
    destruct (Z.eqb_spec status 403); [case_match; [done|by eapply Hagain]|].
    destruct (is_http_error status) eqn:Herr.
    + repeat case_match; try done; by eapply Hagain.
    + injection Hrun as <- <-. exists pre, status.
      rewrite extend_extend, <- app_assoc. done.
  - repeat case_match; try done; by eapply Hagain.
  - repeat case_match; try done; by eapply Hagain.
  - done.
Qed.

(** X5: a fetch that returns a document has just requested it: the
    document is the body of the last answer, whose status is none of 429,
    404, 403 and no 4xx or 5xx, and the only thing done after that request
    is the delay of the request's category. *)
Theorem get_soup_success target retries rt w doc w' :
  get_soup env cfg target retries rt w = (Return (Some doc), w') ->
  exists h status,
    w' = extend w (h ++ [Get target; SleepJitter (base_delay_of cfg rt)])
    /\ session_get env (history w ++ h) target = Response status doc
    /\ is_http_error status = false
    /\ status <> 429 /\ status <> 404 /\ status <> 403.
Proof. unfold get_soup. apply get_soup_loop_success. Qed.

(** X6: nothing precedes the first request of a fetch; with no attempt
    allowed the fetch does nothing and returns [None]. *)
Theorem get_soup_first_request target retries rt w :
  (0 < retries ->
   exists h, (get_soup env cfg target retries rt w).2 = extend w (Get target :: h))
  /\ (retries <= 0 -> get_soup env cfg target retries rt w = (Return None, w)).
Proof.
  unfold get_soup. split.
  - intros Hpos. destruct (Z.to_nat retries) as [|rest] eqn:Hn; [lia|].
    rewrite get_soup_loop_step. cbv zeta. change (1 <? 1) with false. cbv iota.
    rewrite app_nil_r. cbn [app].
    assert (Hagain : forall d sl,
              exists h,
                (get_soup_loop env cfg rest (1 + 1) retries d target rt
                   (extend (extend w [Get target]) sl)).2 = extend w (Get target :: h)).
    { intros d sl.
      destruct (get_soup_loop_budget target rt rest (1 + 1) retries d
                  (extend (extend w [Get target]) sl)) as (h & -> & _).
      exists (sl ++ h). by rewrite !extend_extend. }
    assert (Hstop : forall (o : outcome (option Element)) sl,
              exists h, (o, extend (extend w [Get target]) sl).2 = extend w (Get target :: h)).
    { intros o sl. exists sl. simpl. by rewrite extend_extend. }
    destruct (session_get env (history w) target) as [status body| | |e];
      repeat case_match; try apply Hagain; try apply Hstop.
    all: rewrite <- (extend_nil (extend w [Get target])); apply Hstop.
  - intros Hle. replace (Z.to_nat retries) with 0%nat by lia. reflexivity.
Qed.








End FetcherRuns.

(** * Requests of the pagination controller *)

Section ControllerRequests.

Context {Element : Type} `{HtmlQuery Element}.
Variable env : Env Element.
Variable cfg : Config.
Variable nd_zeros : list N.
Variable urljoin : pystr -> pystr -> pystr.

Lemma get_soup_budget_of target retries rt w o w1 :
  get_soup env cfg target retries rt w = (o, w1) ->
  exists h, w1 = extend w h /\ (count_gets h <= Z.to_nat retries)%nat
            /\ requests_only target h.
Proof.
  intros Hrun. unfold get_soup in Hrun.
  destruct (get_soup_loop_budget env cfg target rt (Z.to_nat retries) 1 retries
              (BASE_DELAY cfg) w) as (h & Hw & Hrest).
  rewrite Hrun in Hw. simpl in Hw. by exists h.
Qed.

Lemma get_soup_once target rt w :
  exists h, (get_soup env cfg target 1 rt w).2 = extend w (Get target :: h)
            /\ count_gets h = 0%nat.
Proof.
  unfold get_soup. change (Z.to_nat 1) with 1%nat.
  rewrite get_soup_loop_step. cbv zeta. change (1 <? 1) with false. cbv iota.
  cbn [app get_soup_loop ret]. rewrite app_nil_r.
  assert (Hstop : forall (o : outcome (option Element)) sl,
            count_gets sl = 0%nat ->
            exists h, (o, extend (extend w [Get target]) sl).2 = extend w (Get target :: h)
                      /\ count_gets h = 0%nat).
  { intros o sl Hsl. exists sl. simpl. by rewrite extend_extend. }
  destruct (session_get env (history w) target) as [status body| | |e];
    repeat case_match; try (by apply Hstop).
  all: rewrite <- (extend_nil (extend w [Get target])); by apply Hstop.
Qed.

(** X9: the probe of the next page makes exactly one request, to the
    address of page [current_page + 1], whatever the answer; it says yes
    only when that request gave a document in which one of the content
    selectors matches. *)
Theorem check_next_page_exists_one_request current_page base_url w :
  (exists h,
     (check_next_page_exists env cfg current_page base_url w).2
     = extend w (Get (page_url_of base_url (current_page + 1)) :: h)
     /\ count_gets h = 0%nat)
  /\ (forall w',
        check_next_page_exists env cfg current_page base_url w = (Return true, w') ->
        exists soup ind,
          get_soup env cfg (page_url_of base_url (current_page + 1)) 1 Page w
          = (Return (Some soup), w')
          /\ ind ∈ movie_indicators /\ select soup ind <> []).
Proof.
  unfold check_next_page_exists. cbv zeta. unfold bind. split.
  - destruct (get_soup_once (page_url_of base_url (current_page + 1)) Page w)
      as (h & Hw & Hcount).
    exists h. split; [|done].
    destruct (get_soup env cfg _ 1 Page w) as [[[soup|]|e] w1]; simpl in *; done.
  - intros w'.
    destruct (get_soup env cfg _ 1 Page w) as [[[soup|]|e] w1]; try done.
    unfold ret. intros [= Hex <-].
    apply (existsb_exists (fun ind => negb (Nat.eqb (length (select soup ind)) 0))
             movie_indicators) in Hex as (ind & Hin & Hsel).
    exists soup, ind. split; [done|]. split; [by apply list_elem_of_In|].
    intros Hnil. rewrite Hnil in Hsel. done.
Qed.

Lemma requests_pages_app base_url a b h1 h2 :
  requests_pages base_url a b h1 -> requests_pages base_url a b h2 ->
  requests_pages base_url a b (h1 ++ h2).
Proof. unfold requests_pages. intros. by apply Forall_app. Qed.

Lemma requests_pages_weaken base_url a a' b h :
  a' <= a -> requests_pages base_url a b h -> requests_pages base_url a' b h.
Proof.
  intros Hle. unfold requests_pages. intros Hall.
  eapply Forall_impl; [exact Hall|]. intros act Hact t Ht. destruct (Hact t Ht) as (k & Hk & ->). exists k. split; [lia|done].
Qed.

Lemma requests_only_pages base_url a b k h :
  a <= k <= b -> requests_only (page_address base_url k) h ->
  requests_pages base_url a b h.
Proof.
  intros Hk. unfold requests_only, requests_pages. intros Hall.
  eapply Forall_impl; [exact Hall|]. intros act Hact t Ht. exists k. split; [done|]. by apply Hact.
Qed.

Lemma check_next_budget current_page base_url w o w1 :
  check_next_page_exists env cfg current_page base_url w = (o, w1) ->
  exists h, w1 = extend w h /\ (count_gets h <= 1)%nat
            /\ requests_only (page_url_of base_url (current_page + 1)) h.
Proof.
  unfold check_next_page_exists. cbv zeta. unfold bind. intros Hrun.
  destruct (get_soup env cfg _ 1 Page w) as [[[soup|]|e] w2] eqn:Hget;
    apply get_soup_budget_of in Hget as (h & -> & Hcount & Hreq);
    injection Hrun as <- <-; by exists h.
Qed.

Lemma pages_loop_requests fuel : forall base_url current_page all_movies_data w,
  1 <= current_page ->
  exists h,
    (pages_loop env cfg nd_zeros urljoin fuel base_url current_page all_movies_data w).2
    = extend w h
    /\ (count_gets h <= 4 * fuel)%nat
    /\ requests_pages base_url current_page (MAX_PAGES cfg) h.
Proof.
  induction fuel as [|fuel IH]; intros base_url current_page all_movies_data w Hcp.
  - exists []. simpl. rewrite extend_nil. split; [done|]. split; [by apply Nat.le_0_l|].
    constructor.
  - assert (Hnone : forall (l : list Movie),
              exists h, (Return l, w).2 = extend w h /\ (count_gets h <= 4 * S fuel)%nat
                        /\ requests_pages base_url current_page (MAX_PAGES cfg) h).
    { intros l. exists []. simpl. rewrite extend_nil. split; [done|].
      split; [by apply Nat.le_0_l|constructor]. }
    cbn [pages_loop].
    destruct (Z.leb_spec current_page (MAX_PAGES cfg)) as [Hle|]; [|apply Hnone].
    cbn [negb]. unfold bind at 1.
    fold (page_address base_url current_page).
    destruct (get_soup env cfg (page_address base_url current_page) MAX_RETRIES Page w)
      as [o w1] eqn:Hget.
    apply get_soup_budget_of in Hget as (h1 & -> & Hc1 & Hr1).
    change (Z.to_nat MAX_RETRIES) with 3%nat in Hc1.
    assert (Hp1 : requests_pages base_url current_page (MAX_PAGES cfg) h1).
    { eapply requests_only_pages; [|exact Hr1]. lia. }
    assert (Hstop : forall (o' : outcome (list Movie)),
              exists h, (o', extend w h1).2 = extend w h
                        /\ (count_gets h <= 4 * S fuel)%nat
                        /\ requests_pages base_url current_page (MAX_PAGES cfg) h).
    { intros o'. exists h1. split; [done|]. split; [lia|done]. }
    destruct o as [[soup|]|e]; [|apply Hstop|apply Hstop].
    destruct (extract_movie_data_from_schedule nd_zeros urljoin soup) as [|m ms];
      [apply Hstop|].
    destruct (limit_reached _ _); [apply Hstop|].
    unfold bind at 1.
    destruct ((if current_page <? MAX_PAGES cfg
               then check_next_page_exists env cfg current_page base_url
               else ret true) (extend w h1)) as [ob w2] eqn:Hprobe.
    assert (Hh2 : exists h2, w2 = extend w (h1 ++ h2) /\ (count_gets h2 <= 1)%nat
                             /\ requests_pages base_url current_page (MAX_PAGES cfg) h2).
    { destruct (Z.ltb_spec current_page (MAX_PAGES cfg)).
      - apply check_next_budget in Hprobe as (h2 & -> & Hc2 & Hr2).
        exists h2. rewrite extend_extend. split; [done|]. split; [done|].
        eapply (requests_only_pages _ _ _ (current_page + 1)); [lia|].
        unfold page_address. destruct (Z.eqb_spec (current_page + 1) 1); [lia|done].
      - injection Hprobe as <- <-. exists []. rewrite app_nil_r.
        split; [done|]. split; [by apply Nat.le_0_l|constructor]. }
    destruct Hh2 as (h2 & -> & Hc2 & Hp2).
    assert (Hstop2 : forall (o' : outcome (list Movie)),
              exists h, (o', extend w (h1 ++ h2)).2 = extend w h
                        /\ (count_gets h <= 4 * S fuel)%nat
                        /\ requests_pages base_url current_page (MAX_PAGES cfg) h).
    { intros o'. exists (h1 ++ h2). split; [done|]. rewrite count_gets_app.
      split; [lia|by apply requests_pages_app]. }
    destruct ob as [[|]|e]; [|apply Hstop2|apply Hstop2].
    unfold bind at 1. unfold smart_delay at 1, do at 1.
    fold (extend (extend w (h1 ++ h2)) [SleepJitter (base_delay_of cfg Page)]).
    destruct (IH base_url (current_page + 1) (merge_page all_movies_data (m :: ms))
                (extend (extend w (h1 ++ h2)) [SleepJitter (base_delay_of cfg Page)]))
      as (h3 & Hw3 & Hc3 & Hp3); [lia|].
    exists (h1 ++ h2 ++ [SleepJitter (base_delay_of cfg Page)] ++ h3).
    split; [|split].
    + rewrite Hw3, !extend_extend. by rewrite <- !app_assoc.
    + rewrite !count_gets_app. change (count_gets [SleepJitter _]) with 0%nat. lia.
    + apply requests_pages_app; [done|]. apply requests_pages_app; [done|].
      apply requests_pages_app; [repeat constructor; done|].
      eapply requests_pages_weaken; [|exact Hp3]. lia.
Qed.





(** X10: a run of the pagination controller makes at most four requests per
    allowed page (three attempts for the page, one for the probe of the
    next), asks only for pages 1 to [MAX_PAGES] of the listing, and leaves
    the output file as it was; with [MAX_PAGES] below 1 it does nothing and
    returns no movie. *)
Theorem parse_all_schedule_pages_requests base_url w :
  (exists h,
     (parse_all_schedule_pages env cfg nd_zeros urljoin base_url w).2 = extend w h
     /\ (count_gets h <= 4 * Z.to_nat (MAX_PAGES cfg))%nat
     /\ requests_pages base_url 1 (MAX_PAGES cfg) h)
  /\ (MAX_PAGES cfg < 1 ->
      parse_all_schedule_pages env cfg nd_zeros urljoin base_url w = (Return [], w)).
Proof.
  unfold parse_all_schedule_pages. split.
  - apply pages_loop_requests. lia.
  - intros Hlt. replace (Z.to_nat (MAX_PAGES cfg)) with 0%nat by lia. reflexivity.
Qed.

End ControllerRequests.

(** * Facts about the extractors *)

Section ExtractionFacts.

Context {Element : Type} `{HtmlQuery Element}.
Variable nd_zeros : list N.
Variable urljoin : pystr -> pystr -> pystr.
Variable py_lower : pystr -> pystr.

Lemma first_matching_first soup before s after :
  (forall s', s' ∈ before -> select soup s' = []) ->
  select soup s <> [] ->
  first_matching soup (before ++ s :: after) = select soup s.
Proof.
  intros Hbefore Hs. induction before as [|b before IH]; simpl.
  - destruct (select soup s); done.
  - rewrite Hbefore by (by left). apply IH. intros s' Hs'. apply Hbefore. by right.
Qed.

Lemma first_matching_none soup sels :
  (forall s, s ∈ sels -> select soup s = []) -> first_matching soup sels = [].
Proof.
  induction sels as [|s sels IH]; intros Hall; [done|]. simpl.
  rewrite Hall by (by left). apply IH. intros s' Hs'. apply Hall. by right.
Qed.

(** X11: the first container selector that matches anything decides: the
    records come from its matches alone, in document order, whatever the
    later selectors would match. *)
Theorem extract_first_match_wins soup before s after :
  movie_selectors = before ++ s :: after ->
  (forall s', s' ∈ before -> select soup s' = []) ->
  select soup s <> [] ->
  extract_movie_data_from_schedule nd_zeros urljoin soup
  = omap (movie_of_container nd_zeros urljoin) (select soup s).
Proof.
  intros Hsel Hbefore Hs. unfold extract_movie_data_from_schedule.
  rewrite Hsel, (first_matching_first soup before s after Hbefore Hs).
  destruct (select soup s); done.
Qed.

(** X12: when no container selector matches, the records come from the
    links whose address contains movie or film; with no such link the
    result is empty. *)
Theorem extract_without_containers soup :
  (forall s, s ∈ movie_selectors -> select soup s = []) ->
  extract_movie_data_from_schedule nd_zeros urljoin soup
  = omap (movie_of_link urljoin)
         (filter (fun l => is_movie_href l.2) (find_all_links soup))
  /\ ((forall l, l ∈ find_all_links soup -> is_movie_href l.2 = false) ->
      extract_movie_data_from_schedule nd_zeros urljoin soup = []).
Proof.
  intros Hnone. unfold extract_movie_data_from_schedule.
  rewrite (first_matching_none soup movie_selectors Hnone). split; [done|].
  intros Hlinks.
  destruct (filter (fun l => is_movie_href l.2) (find_all_links soup))
    as [|l ls] eqn:Hfilter; [done|].
  assert (Hl : l ∈ filter (fun l => is_movie_href l.2) (find_all_links soup))
    by (rewrite Hfilter; by left).
  apply list_elem_of_filter in Hl as [Hhref Hl]. rewrite (Hlinks l Hl) in Hhref. done.
Qed.

Lemma listing_times_valid text :
  Forall (valid_clock nd_zeros) (listing_times nd_zeros text).
Proof.
  unfold listing_times.
  apply (fold_left_invariant _ (is_match nd_zeros)); [|apply listing_matches|constructor].
  intros ts m Hm Hall. by apply add_time_valid.
Qed.

Lemma listing_times_NoDup text : NoDup (listing_times nd_zeros text).
Proof.
  unfold listing_times.
  apply (fold_left_invariant _ (fun _ => True)); [| |constructor].
  - intros ts m _ Hnd. by apply add_time_NoDup.
  - apply Forall_forall. done.
Qed.

(** X13: every record the listing extractor gives has no country and no
    show date yet; its showtimes are distinct times of the 24-hour clock;
    a record found by the link scan has no showtime and has the address of
    its link. *)
Theorem extract_record_shape soup m :
  m ∈ extract_movie_data_from_schedule nd_zeros urljoin soup ->
  countries m = [] /\ nearest_show_date m = None
  /\ NoDup (times m) /\ Forall (valid_clock nd_zeros) (times m)
  /\ (first_matching soup movie_selectors = [] ->
      times m = []
      /\ exists l, l ∈ find_all_links soup /\ is_movie_href l.2 = true
                   /\ url m = Some (urljoin site l.2)).
Proof.
  unfold extract_movie_data_from_schedule.
  destruct (first_matching soup movie_selectors) as [|e es] eqn:Hfirst.
  - intros Hm. apply list_elem_of_omap in Hm as (l & Hl & Hm).
    unfold movie_of_link in Hm. destruct (usable_title _); [|done].
    injection Hm as <-. simpl. repeat split; try constructor.
    apply list_elem_of_filter in Hl as [Hhref Hl]. exists l.
    split; [done|]. split; [|done]. by destruct (is_movie_href l.2).
  - intros Hm. apply list_elem_of_omap in Hm as (c & _ & Hm).
    unfold movie_of_container in Hm.
    destruct (probe_title c title_selectors None) as [[|x t]|]; try done.
    injection Hm as <-. simpl. split; [done|]. split; [done|].
    split; [apply listing_times_NoDup|]. split; [apply listing_times_valid|done].
Qed.

(** *** Showtimes of the detail page *)

Lemma add_page_time_NoDup ts m : NoDup ts -> NoDup (add_page_time nd_zeros ts m).
Proof.
  intros Hnd. unfold add_page_time.
  destruct (strptime_hm nd_zeros (replace_dot_colon m)) as [[h mi]|]; [|done].
  destruct (_ && _); [|done].
  unfold str_mem. case_bool_decide as Hin; [done|].
  apply NoDup_app. split; [done|]. split; [|apply NoDup_singleton].
  intros x Hx Hx'. apply list_elem_of_singleton in Hx' as ->. done.
Qed.

Lemma add_element_time_NoDup ts e : NoDup ts -> NoDup (add_element_time nd_zeros ts e).
Proof.
  intros Hnd. unfold add_element_time.
  destruct (re_search _ _ _); [by apply add_time_NoDup|done].
Qed.

Lemma add_element_time_length ts e :
  (length (add_element_time nd_zeros ts e) <= S (length ts))%nat.
Proof.
  unfold add_element_time, add_time. repeat case_match; rewrite ?length_app; simpl; lia.
Qed.

Lemma add_page_time_hours ts m :
  Forall (screening_hour nd_zeros) ts -> Forall (screening_hour nd_zeros) (add_page_time nd_zeros ts m).
Proof.
  intros Hall. unfold add_page_time.
  destruct (strptime_hm nd_zeros (replace_dot_colon m)) as [[h mi]|] eqn:Hparse; [|done].
  destruct (_ && _) eqn:Hrange; [|done]. destruct (str_mem _ ts); [done|].
  apply Forall_app. split; [done|]. apply Forall_singleton. exists h, mi.
  split; [done|]. apply andb_true_iff in Hrange as [H1 H2].
  apply N.leb_le in H1, H2. lia.
Qed.

(** X14: the showtimes read off a detail page are distinct.  When the time
    selectors give at least one, they alone are returned, at most one per
    matched element; otherwise the times come from the text of the page and
    only hours from 6 to 23 are kept. *)
Theorem parse_showtimes_from_page_shape soup :
  NoDup (parse_showtimes_from_page nd_zeros soup)
  /\ (length (selector_times nd_zeros soup)
      <= length (flat_map (select soup) time_selectors))%nat
  /\ (selector_times nd_zeros soup <> [] ->
      parse_showtimes_from_page nd_zeros soup = selector_times nd_zeros soup)
  /\ (selector_times nd_zeros soup = [] ->
      Forall (screening_hour nd_zeros) (parse_showtimes_from_page nd_zeros soup)).
Proof.
  assert (Hsel : NoDup (selector_times nd_zeros soup)).
  { unfold selector_times.
    apply (fold_left_invariant _ (fun _ => True)); [| |constructor].
    - intros ts e _ Hnd. by apply add_element_time_NoDup.
    - apply Forall_forall. done. }
  assert (Hlen : forall l acc,
            (length (fold_left (add_element_time nd_zeros) l acc)
             <= length acc + length l)%nat).
  { induction l as [|e l IH]; intros acc; simpl; [lia|].
    specialize (IH (add_element_time nd_zeros acc e)).
    pose proof (add_element_time_length acc e). lia. }
  unfold parse_showtimes_from_page. fold (selector_times nd_zeros soup).
  split; [|split; [|split]].
  - destruct (selector_times nd_zeros soup) as [|t ts]; [|done].
    apply (fold_left_invariant _ (fun _ => True)); [| |constructor].
    + intros ts m _ Hnd. by apply add_page_time_NoDup.
    + apply Forall_forall. done.
  - unfold selector_times. apply (Hlen _ []).
  - destruct (selector_times nd_zeros soup); done.
  - intros ->.
    apply (fold_left_invariant _ (fun _ => True)); [| |constructor].
    + intros ts m _ Hall. by apply add_page_time_hours.
    + apply Forall_forall. done.
Qed.

(** *** Countries *)

Lemma add_country_shape cs el :
  Forall (country_like py_lower) cs /\ NoDup cs ->
  Forall (country_like py_lower) (add_country py_lower cs el) /\ NoDup (add_country py_lower cs el).
Proof.
  intros [Hall Hnd]. unfold add_country.
  destruct (_ && _) eqn:Hok; [|done].
  destruct (existsb _ label_words) eqn:Hlabel; [done|].
  apply andb_true_iff in Hok as [Hok Hnew]. apply andb_true_iff in Hok as [Hne Hlen].
  split.
  - apply Forall_app. split; [done|]. apply Forall_singleton.
    split; [|split; [|split]].
    + intros Heq. rewrite Heq in Hne. done.
    + by apply Nat.ltb_lt.
    + apply clean_ends_strip, get_text_strip_clean.
    + intros word Hword. apply not_true_is_false. intros Hin.
      assert (existsb (fun word => str_in word (py_lower (get_text_strip el))) label_words
              = true); [|congruence].
      apply existsb_exists. exists word. split; [by apply list_elem_of_In|done].
  - apply NoDup_app. split; [done|]. split; [|apply NoDup_singleton].
    intros x Hx Hx'. apply list_elem_of_singleton in Hx' as ->.
    unfold str_mem in Hnew. apply negb_true_iff, bool_decide_eq_false in Hnew. done.
Qed.

(** X15: the countries read off a detail page are distinct, non-empty,
    shorter than 50 characters, without white space at either end, and
    none contains one of the label words once put in lower case. *)
Theorem parse_countries_shape soup :
  Forall (country_like py_lower) (parse_countries py_lower soup)
  /\ NoDup (parse_countries py_lower soup).
Proof.
  unfold parse_countries.
  apply (fold_left_invariant (fun cs => Forall (country_like py_lower) cs /\ NoDup cs)
                             (fun _ => True)).
  - intros cs el _ Hcs. by apply add_country_shape.
  - apply Forall_forall. done.
  - split; constructor.
Qed.

End ExtractionFacts.

(** * Facts about [strptime] *)

Section StrptimeRange.

Variable nd_zeros : list N.

Lemma first_some_elem {A B} (f : A -> option B) (l : list A) (y : B) :
  first_some f l = Some y -> exists x, x ∈ l /\ f x = Some y.
Proof.
  induction l as [|x l IH]; [done|]. simpl.
  destruct (f x) as [y'|] eqn:Hx.
  - intros [= <-]. exists x. split; [by left|done].
  - intros Hy. destruct (IH Hy) as (x' & Hin & Hx'). exists x'. split; [by right|done].
Qed.

Lemma hour_alternatives_range s h r :
  (h, r) ∈ hour_alternatives nd_zeros s -> (h <= 23)%N.
Proof.
  unfold hour_alternatives. rewrite !elem_of_app. intros [Hin|[Hin|Hin]].
  - destruct s as [|a [|c t]]; try by apply elem_of_nil in Hin.
    destruct (_ && _) eqn:Hc; [|by apply elem_of_nil in Hin].
    apply list_elem_of_singleton in Hin. injection Hin as -> ->.
    apply andb_true_iff in Hc as [Hc H2]. apply andb_true_iff in Hc as [_ H1].
    apply N.leb_le in H1, H2. lia.
  - destruct s as [|a [|c t]]; try by apply elem_of_nil in Hin.
    destruct (_ && _) eqn:Hc; [|by apply elem_of_nil in Hin].
    destruct (digit_value nd_zeros c) as [v|] eqn:Hv; [|by apply elem_of_nil in Hin].
    apply list_elem_of_singleton in Hin. injection Hin as -> ->.
    apply digit_value_inv in Hv as [Hv _].
    apply andb_true_iff in Hc as [H1 H2]. apply N.leb_le in H1, H2. lia.
  - destruct s as [|c t]; [by apply elem_of_nil in Hin|].
    destruct (digit_value nd_zeros c) as [v|] eqn:Hv; [|by apply elem_of_nil in Hin].
    apply list_elem_of_singleton in Hin. injection Hin as -> ->.
    apply digit_value_inv in Hv as [Hv _]. lia.
Qed.

Lemma minute_alternatives_range s m r :
  (m, r) ∈ minute_alternatives nd_zeros s -> (m <= 59)%N.
Proof.
  unfold minute_alternatives. rewrite !elem_of_app. intros [Hin|Hin].
  - destruct s as [|a [|c t]]; try by apply elem_of_nil in Hin.
    destruct (_ && _) eqn:Hc; [|by apply elem_of_nil in Hin].
    destruct (digit_value nd_zeros c) as [v|] eqn:Hv; [|by apply elem_of_nil in Hin].
    apply list_elem_of_singleton in Hin. injection Hin as -> ->.
    apply digit_value_inv in Hv as [Hv _].
    apply andb_true_iff in Hc as [H1 H2]. apply N.leb_le in H1, H2. lia.
  - destruct s as [|c t]; [by apply elem_of_nil in Hin|].
    destruct (digit_value nd_zeros c) as [v|] eqn:Hv; [|by apply elem_of_nil in Hin].
    apply list_elem_of_singleton in Hin. injection Hin as -> ->.
    apply digit_value_inv in Hv as [Hv _]. lia.
Qed.

(** Whatever the string, an accepted time has its hour below 24 and its
    minute below 60. *)
Lemma strptime_hm_range s h m :
  strptime_hm nd_zeros s = Some (h, m) -> (h <= 23)%N /\ (m <= 59)%N.
Proof.
  unfold strptime_hm, match_hm.
  destruct (first_some _ _) as [[[h' m'] rest]|] eqn:Hfirst; [|done].
  destruct rest; [|done]. intros [= -> ->].
  apply first_some_elem in Hfirst as ([h0 r] & Hin & Hf).
  destruct r as [|c r']; [done|]. destruct (c =? 58)%N; [|done].
  destruct (minute_alternatives nd_zeros r') as [|[m0 rest] others] eqn:Hmin; [done|].
  injection Hf as <- <- _. split.
  - by eapply hour_alternatives_range.
  - eapply (minute_alternatives_range r' m0 rest). rewrite Hmin. by left.
Qed.

End StrptimeRange.

Section EventFacts.

Context {Element : Type} `{HtmlQuery Element}.
Variable env : Env Element.
Variable cfg : Config.
Variable nd_zeros : list N.
Variable urljoin : pystr -> pystr -> pystr.
Variable py_lower : pystr -> pystr.

(** X16: a movie gives no event exactly when one of its countries is,
    character for character, one of the excluded countries. *)
Theorem create_calendar_event_exclusion now movie :
  create_calendar_event cfg nd_zeros now movie = None
  <-> exists c, c ∈ countries movie /\ c ∈ EXCLUDE_COUNTRIES cfg.
Proof.
  unfold create_calendar_event.
  destruct (existsb _ (countries movie)) eqn:Hex.
  - split; [intros _|done].
    apply existsb_exists in Hex as (c & Hin & Hmem).
    exists c. split; [by apply list_elem_of_In|].
    unfold str_mem in Hmem. by apply bool_decide_eq_true in Hmem.
  - destruct (event_time nd_zeros (times movie)) as [h m]. split; [done|].
    intros (c & Hin & Hex'). exfalso.
    assert (existsb (fun country => str_mem country (EXCLUDE_COUNTRIES cfg))
                    (countries movie) = true); [|congruence].
    apply existsb_exists. exists c. split; [by apply list_elem_of_In|].
    unfold str_mem. by apply bool_decide_eq_true.
Qed.

Lemma event_time_range ts h m :
  event_time nd_zeros ts = (h, m) -> 0 <= h <= 23 /\ 0 <= m <= 59.
Proof.
  unfold event_time. destruct ts as [|t ?]; [intros [= <- <-]; lia|].
  destruct (strptime_hm nd_zeros t) as [[h' m']|] eqn:Hparse; [|intros [= <- <-]; lia].
  intros [= <- <-]. apply strptime_hm_range in Hparse. lia.
Qed.

(** X17: an event carries the movie's title and address; it is dated on
    the nearest show date when there is one and on the day after today
    otherwise; it begins on a minute of the clock (hour 0 to 23, minute 0 to
    59, no seconds), which is that of the first showtime when it parses and
    19:00 when there is no showtime or it does not parse. *)
Theorem create_calendar_event_fields now movie event :
  create_calendar_event cfg nd_zeros now movie = Some event ->
  ev_name event = title movie
  /\ ev_url event = url_given (url movie)
  /\ dt_date (ev_begin event)
     = default (next_day (dt_date now)) (nearest_show_date movie)
  /\ 0 <= dt_hour (ev_begin event) <= 23
  /\ 0 <= dt_minute (ev_begin event) <= 59
  /\ dt_second (ev_begin event) = 0 /\ dt_microsecond (ev_begin event) = 0
  /\ (forall t rest h m, times movie = t :: rest ->
        strptime_hm nd_zeros t = Some (h, m) ->
        dt_hour (ev_begin event) = Z.of_N h /\ dt_minute (ev_begin event) = Z.of_N m)
  /\ ((times movie = [] \/
       exists t rest, times movie = t :: rest /\ strptime_hm nd_zeros t = None) ->
      dt_hour (ev_begin event) = 19 /\ dt_minute (ev_begin event) = 0).
Proof.
  unfold create_calendar_event. destruct (existsb _ _); [done|].
  destruct (event_time nd_zeros (times movie)) as [h m] eqn:Htime.
  intros [= <-]. simpl.
  pose proof (event_time_range _ _ _ Htime) as [Hh Hm].
  split; [done|]. split; [done|].
  split; [by destruct (nearest_show_date movie)|].
  split; [done|]. split; [done|]. split; [done|]. split; [done|]. split.
  - intros t rest h' m' Hts Hparse. unfold event_time in Htime.
    rewrite Hts, Hparse in Htime. by injection Htime as <- <-.
  - intros [Hts|(t & rest & Hts & Hparse)]; unfold event_time in Htime.
    + rewrite Hts in Htime. by injection Htime as <- <-.
    + rewrite Hts, Hparse in Htime. by injection Htime as <- <-.
Qed.

(** X20: the placeholder events of [main] begin exactly 24 hours after the
    clock reading and end exactly 26 hours after it. *)
Theorem placeholder_events_timing now e :
  well_formed (dt_date now) ->
  timestamp (ev_begin (no_movies_event now)) = timestamp now + one_day
  /\ timestamp (ev_end (no_movies_event now)) = timestamp now + one_day + two_hours
  /\ timestamp (ev_begin (error_event now e)) = timestamp now + one_day
  /\ timestamp (ev_end (error_event now e)) = timestamp now + one_day + two_hours.
Proof.
  intros Hwf.
  assert (Hday : timestamp (plus_one_day now) = timestamp now + one_day).
  { unfold plus_one_day, timestamp, one_day. simpl.
    rewrite toordinal_next_day by done. lia. }
  assert (Hend : timestamp (plus_two_hours (plus_one_day now))
                 = timestamp now + one_day + two_hours).
  { rewrite timestamp_plus_two_hours, Hday; [done|].
    simpl. by apply well_formed_next_day. }
  simpl. done.
Qed.

(** *** Enrichment and the loop over the movies *)

Lemma enrich_keeps_identity movie w movie' w' :
  enrich env cfg nd_zeros py_lower movie w = (Return movie', w') ->
  title movie' = title movie /\ url movie' = url movie.
Proof.
  unfold enrich. destruct (_ && _).
  - unfold bind.
    destruct (parse_movie_details_and_schedule env cfg nd_zeros py_lower (url movie) w)
      as [[[[cs d] ts]|e] w1]; [|done].
    by intros [= <- <-].
  - by intros [= <- <-].
Qed.

(** With the skip flag, or for a movie without an address, enrichment does
    nothing to the world. *)
Lemma enrich_without_details movie w :
  SKIP_DETAILS cfg = true \/ url_given (url movie) = None ->
  enrich env cfg nd_zeros py_lower movie w
  = (Return (mkMovie (title movie) (url movie) (times movie) [] None), w).
Proof.
  intros [Hskip|Hurl]; unfold enrich.
  - by rewrite Hskip.
  - rewrite Hurl. by destruct (negb (SKIP_DETAILS cfg)).
Qed.

Lemma create_calendar_event_name now movie event :
  create_calendar_event cfg nd_zeros now movie = Some event -> ev_name event = title movie.
Proof.
  unfold create_calendar_event. destruct (existsb _ _); [done|].
  destruct (event_time nd_zeros (times movie)) as [h m]. by intros [= <-].
Qed.

Lemma process_movies_adds movies : forall idx total cal w,
  exists added w',
    process_movies env cfg nd_zeros py_lower idx total movies cal w
    = (Return (cal ++ added), w')
    /\ (map ev_name added `sublist_of` map title movies).
Proof.
  induction movies as [|movie rest IH]; intros idx total cal w.
  - exists [], w. simpl. rewrite app_nil_r. done.
  - cbn [process_movies]. unfold bind at 1, try_except.
    assert (Hskip : forall w1,
              exists added w',
                process_movies env cfg nd_zeros py_lower (idx + 1) total rest cal w1
                = (Return (cal ++ added), w')
                /\ (map ev_name added `sublist_of` map title (movie :: rest))).
    { intros w1. destruct (IH (idx + 1) total cal w1) as (added & w' & -> & Hsub).
      exists added, w'. split; [done|]. simpl. by apply sublist_cons. }
    unfold bind at 1.
    destruct (enrich env cfg nd_zeros py_lower movie w) as [[movie'|e] w1] eqn:Henrich;
      [|apply Hskip].
    apply enrich_keeps_identity in Henrich as [Htitle _].
    unfold bind at 1, datetime_now at 1. unfold bind at 1.
    destruct (create_calendar_event cfg nd_zeros _ movie') as [event|] eqn:Hevent.
    + apply create_calendar_event_name in Hevent.
      assert (Hadd : forall w2,
                exists added w',
                  process_movies env cfg nd_zeros py_lower (idx + 1) total rest
                    (cal ++ [event]) w2 = (Return (cal ++ added), w')
                  /\ (map ev_name added `sublist_of` map title (movie :: rest))).
      { intros w2.
        destruct (IH (idx + 1) total (cal ++ [event]) w2) as (added & w' & -> & Hsub).
        exists (event :: added), w'. rewrite <- app_assoc. split; [done|].
        simpl. rewrite Hevent, Htitle. by apply sublist_skip. }
      destruct (idx <? total); apply Hadd.
    + destruct (idx <? total); apply Hskip.
Qed.

Lemma create_calendar_event_without_countries now movie :
  countries movie = [] ->
  exists event, create_calendar_event cfg nd_zeros now movie = Some event.
Proof.
  intros Hnone. unfold create_calendar_event. rewrite Hnone. simpl.
  destruct (event_time nd_zeros (times movie)). by eexists.
Qed.

Lemma process_movies_skipping_details movies : forall idx total cal w,
  Forall (fun m => SKIP_DETAILS cfg = true \/ url_given (url m) = None) movies ->
  exists added h,
    process_movies env cfg nd_zeros py_lower idx total movies cal w
    = (Return (cal ++ added), extend w h)
    /\ map ev_name added = map title movies
    /\ count_gets h = 0%nat.
Proof.
  induction movies as [|movie rest IH]; intros idx total cal w Hall.
  - exists [], []. simpl. rewrite app_nil_r, extend_nil. done.
  - apply Forall_cons in Hall as [Hmovie Hrest].
    cbn [process_movies]. unfold bind at 1, try_except. unfold bind at 1.
    rewrite (enrich_without_details movie w Hmovie).
    unfold bind at 1, datetime_now at 1. unfold bind at 1.
    destruct (create_calendar_event_without_countries (wall_clock env (history w))
                (mkMovie (title movie) (url movie) (times movie) [] None) eq_refl)
      as [event Hevent].
    rewrite Hevent.
    apply create_calendar_event_name in Hevent. simpl in Hevent.
    set (pause := if idx <? total then [SleepJitter (base_delay_of cfg Default)] else []).
    assert (Hpause : (if idx <? total then smart_delay cfg Default else ret tt) w
                     = (Return tt, extend w pause)).
    { subst pause. destruct (idx <? total); [reflexivity|].
      unfold ret. by rewrite extend_nil. }
    rewrite Hpause. unfold ret at 1.
    destruct (IH (idx + 1) total (cal ++ [event]) (extend w pause) Hrest)
      as (added & h & -> & Hnames & Hcount).
    exists (event :: added), (pause ++ h). rewrite <- app_assoc, extend_extend.
    split; [done|]. split; [simpl; by rewrite Hevent, Hnames|].
    rewrite count_gets_app, Hcount. subst pause. by destruct (idx <? total).
Qed.

(** X18: the loop over the movies never raises: a movie whose processing
    raises is left out and the loop goes on.  It only adds to the calendar,
    at most one event per movie, each named after its movie. *)
Theorem process_movies_isolates_failures movies idx total cal w :
  exists added w',
    process_movies env cfg nd_zeros py_lower idx total movies cal w
    = (Return (cal ++ added), w')
    /\ map ev_name added ⊆+ map title movies.
Proof.
  destruct (process_movies_adds movies idx total cal w) as (added & w' & Hrun & Hsub).
  exists added, w'. split; [done|]. by apply sublist_submseteq.
Qed.

(** X19: when details are skipped (by the flag, or because no movie has an
    address), the loop over the movies makes no request, and every movie
    gets its event: the events added are named after the movies, one for
    one. *)
Theorem process_movies_without_details movies idx total cal w :
  Forall (fun m => SKIP_DETAILS cfg = true \/ url_given (url m) = None) movies ->
  exists added h,
    process_movies env cfg nd_zeros py_lower idx total movies cal w
    = (Return (cal ++ added), extend w h)
    /\ map ev_name added ≡ₚ map title movies
    /\ count_gets h = 0%nat.
Proof.
  intros Hall.
  destruct (process_movies_skipping_details movies idx total cal w Hall)
    as (added & h & Hrun & Hnames & Hcount).
  exists added, h. by rewrite Hnames.
Qed.

End EventFacts.

(** * Facts about whole runs *)

Section RunFacts.

Context {Element : Type} `{HtmlQuery Element}.
Variable env : Env Element.
Variable cfg : Config.
Variable nd_zeros : list N.
Variable urljoin : pystr -> pystr -> pystr.
Variable py_lower : pystr -> pystr.


(** *** The detail enricher *)

(** X23: the detail enricher makes at most [MAX_RETRIES] requests, all to
    the movie's address, and none when there is no address; when the page
    cannot be fetched it gives no country, no date and no showtime. *)
Theorem parse_movie_details_and_schedule_requests movie_url w :
  (exists h,
     (parse_movie_details_and_schedule env cfg nd_zeros py_lower movie_url w).2
     = extend w h
     /\ (count_gets h <= Z.to_nat MAX_RETRIES)%nat
     /\ (forall target, url_given movie_url = Some target -> requests_only target h)
     /\ (url_given movie_url = None -> h = []))
  /\ (forall target w', url_given movie_url = Some target ->
        get_soup env cfg target MAX_RETRIES Detail w = (Return None, w') ->
        parse_movie_details_and_schedule env cfg nd_zeros py_lower movie_url w
        = (Return ([], None, []), w')).
Proof.
  unfold parse_movie_details_and_schedule.
  destruct (url_given movie_url) as [target|].
  - split.
    + unfold bind at 1.
      destruct (get_soup env cfg target MAX_RETRIES Detail w) as [o w1] eqn:Hget.
      apply (get_soup_budget_of env cfg) in Hget as (h & -> & Hcount & Hreq).
      exists h. split; [by destruct o as [[soup|]|e]|]. split; [done|].
      split; [by intros t [= <-]|done].
    + intros t w' [= <-] Hget. unfold bind at 1. by rewrite Hget.
  - split; [|done]. exists []. rewrite extend_nil. split; [done|].
    split; [by apply Nat.le_0_l|]. split; done.
Qed.

End RunFacts.

Section CalendarLinks.

Context {Element : Type} `{HtmlQuery Element}.
Variable nd_zeros : list N.

(** X22: a date built from an active link whose label names October,
    November or December lies in that month of 2025, whatever the clock
    says; a date built from any other label lies in the current month of
    the current year. *)
Theorem date_of_link_month_and_year now link d :
  date_of_link nd_zeros now link = Some d ->
  let label := default [] (get_attr link "aria-label") in
  (str_in (u "октября") label = true -> year d = 2025 /\ month d = 10)
  /\ (str_in (u "октября") label = false -> str_in (u "ноября") label = true ->
      year d = 2025 /\ month d = 11)
  /\ (str_in (u "октября") label = false -> str_in (u "ноября") label = false ->
      str_in (u "декабря") label = true -> year d = 2025 /\ month d = 12)
  /\ (str_in (u "октября") label = false -> str_in (u "ноября") label = false ->
      str_in (u "декабря") label = false ->
      year d = year (dt_date now) /\ month d = month (dt_date now)).
Proof.
  intros Hd label. apply date_of_link_spec in Hd as (day_elem & n & _ & _ & Hd).
  fold label in Hd. unfold month_year in Hd.
  assert (Hfields : forall y m, py_date y m n = Some d -> year d = y /\ month d = m).
  { intros y m Hy. unfold py_date in Hy. case_match; [|done]. by injection Hy as <-. }
  destruct (str_in (u "октября") label), (str_in (u "ноября") label),
    (str_in (u "декабря") label); simpl in Hd; apply Hfields in Hd;
    repeat split; intros; try done; tauto.
Qed.

End CalendarLinks.

(** * Merging a page again; fetches without exceptions *)

Lemma merge_list_known page : forall acc,
  (forall m, m ∈ page -> title m ∈ map title acc) -> merge_list acc page = acc.
Proof.
  induction page as [|x page IH]; intros acc Hknown; [done|].
  rewrite merge_list_cons. destruct (decide _) as [Hin|Hout].
  - apply IH. intros m Hm. apply Hknown. by right.
  - destruct Hout. apply Hknown. by left.
Qed.

(** X24: merging a page never changes the records already collected, which
    stay at the front; a page whose titles are all collected already adds
    nothing, so merging the same page a second time changes nothing. *)
Theorem merge_page_absorbs (all_movies_data page_movies : list Movie) :
  all_movies_data `prefix_of` merge_page all_movies_data page_movies
  /\ ((forall m, m ∈ page_movies -> title m ∈ map title all_movies_data) ->
      merge_page all_movies_data page_movies = all_movies_data)
  /\ merge_page (merge_page all_movies_data page_movies) page_movies
     = merge_page all_movies_data page_movies.
Proof.
  rewrite !merge_page_list. split; [|split].
  - destruct (merge_list_sublist page_movies all_movies_data) as (new & -> & _).
    by exists new.
  - apply merge_list_known.
  - apply merge_list_known. intros m Hm. by apply merge_list_titles.
Qed.

Section QuietRuns.

Context {Element : Type} `{HtmlQuery Element}.
Variable env : Env Element.
Variable cfg : Config.
Variable nd_zeros : list N.
Variable urljoin : pystr -> pystr -> pystr.
Variable py_lower : pystr -> pystr.




(** X26: when a listing page cannot be fetched, or holds no record, the
    controller returns what it has collected so far and does nothing more:
    no probe, no wait, no further page. *)
Theorem pages_loop_stops_on_empty_page
    fuel base_url current_page all_movies_data w fetched w1 :
  current_page <= MAX_PAGES cfg ->
  get_soup env cfg (page_address base_url current_page) MAX_RETRIES Page w
  = (Return fetched, w1) ->
  match fetched with
  | None => True
  | Some soup => extract_movie_data_from_schedule nd_zeros urljoin soup = []
  end ->
  pages_loop env cfg nd_zeros urljoin (S fuel) base_url current_page all_movies_data w
  = (Return all_movies_data, w1).
Proof.
  intros Hpage Hget Hempty. cbn [pages_loop].
  destruct (Z.leb_spec current_page (MAX_PAGES cfg)); [|lia]. cbn [negb].
  cbv zeta. unfold bind at 1. unfold page_address in Hget. rewrite Hget.
  destruct fetched as [soup|]; [|done]. by rewrite Hempty.
Qed.

End QuietRuns.

(** * The statements on concrete runs *)



(** With a negative base delay the first wait raises: [time.sleep] refuses
    a negative argument, and the exception leaves the fetch. *)
Example negative_delay_raises :
  get_soup (always (Response 429 blank_page) sample_now)
           (mkConfig None 10 (-5) [] false) (u "x") MAX_RETRIES Default empty_world
  = (Raise sleep_value_error, mkWorld [Get (u "x")] None).
Proof. vm_compute. reflexivity. Qed.

(** C2, on a run: a container whose only title candidate is two characters
    long still gives a record. *)
Lemma C2_short_title_gives_a_record :
  extract_movie_data_from_schedule nd_zeros_sample urljoin_sample short_title_page
  = [mkMovie (u "AB") None [] [] None]
  /\ usable_title (u "AB") = false.
Proof. vm_compute. split; reflexivity. Qed.

(** C3, on a run: the match 9:30 is kept as it is, not as 09:30; 25:61 is
    dropped and 10.15 becomes 10:15. *)
Lemma C3_one_digit_hour_is_not_padded :
  map times (extract_movie_data_from_schedule nd_zeros_sample urljoin_sample showtimes_page)
  = [[u "9:30"; u "10:15"]]
  /\ str_mem (u "09:30") [u "9:30"; u "10:15"] = false.
Proof. vm_compute. split; reflexivity. Qed.

Lemma C3_clock_times_witness :
  valid_clock nd_zeros_sample (u "9:30")
  /\ u "25:61" ∉ listing_times nd_zeros_sample (u " 9:30, 25:61, 10.15").
Proof.
  destruct (C3_times_are_clock_times_as_matched (Element := node) nd_zeros_sample)
    as (Hvalid & _ & _ & _ & Hbad & _).
  split; [|apply Hbad].
  apply (Hvalid (u " 9:30, 25:61, 10.15")). vm_compute. repeat constructor.
Defined.

(** C4, on a run: the answer 404 and three timeouts give the same value. *)
Lemma C4_not_found_equals_exhausted :
  (get_soup (always (Response 404 blank_page) sample_now) default_config (u "x")
            MAX_RETRIES Default empty_world).1
  = (get_soup (always RaiseTimeout sample_now) default_config (u "x")
              MAX_RETRIES Default empty_world).1.
Proof. vm_compute. reflexivity. Qed.

Lemma C4_not_found_witness :
  get_soup_loop (always (Response 404 blank_page) sample_now) default_config
                2 2 3 15 (u "x") Default empty_world
  = (Return None, mkWorld [SleepJitter 10; Get (u "x")] None).
Proof.
  apply (C4_not_found_returns_none_at_once
           (always (Response 404 blank_page) sample_now) default_config
           1 2 3 15 (u "x") Default empty_world blank_page).
  reflexivity.
Defined.


(** On the last evening of a year the placeholder begins on 1 January and
    ends on 2 January. *)
Example placeholder_at_year_end :
  ev_begin (no_movies_event (mkdatetime (mkdate 2025 12 31) 23 30 0 0))
  = mkdatetime (mkdate 2026 1 1) 23 30 0 0
  /\ ev_end (no_movies_event (mkdatetime (mkdate 2025 12 31) 23 30 0 0))
     = mkdatetime (mkdate 2026 1 2) 1 30 0 0.
Proof. vm_compute. split; reflexivity. Qed.

Example main_after_exception :
  main (always (RaiseOther (Error (u "boom"))) sample_now) default_config nd_zeros_sample
       urljoin_sample lower_sample empty_world
  = (Raise (Error (u "boom")),
     mkWorld [Get base_schedule_url]
             (Some [error_event sample_now (Error (u "boom"))])).
Proof. vm_compute. reflexivity. Qed.

(** C6, on two pages that share a title: the first record is kept. *)
Lemma C6_merge_witness :
  fold_left merge_page overlapping_pages []
  = [record_of "Alien"; record_of "Brazil"; record_of "Casino"]
  /\ NoDup (map title (fold_left merge_page overlapping_pages [])).
Proof.
  split; [vm_compute; reflexivity|].
  pose proof (C6_merge_keeps_first_occurrences overlapping_pages) as Hthm.
  cbv zeta in Hthm. exact (proj1 Hthm).
Defined.

(** C7, on a run: with the limit 0 nothing is cut and the controller goes
    on to probe the next page. *)
Lemma C7_limit_zero_keeps_everything :
  parse_all_schedule_pages (always (Response 200 short_title_page) sample_now)
    (limit_config 0) nd_zeros_sample urljoin_sample (u "b/") empty_world
  = (Return [mkMovie (u "AB") None [] [] None],
     mkWorld [Get (u "b/"); SleepJitter 8; Get (u "b/page2/"); SleepJitter 8] None).
Proof. vm_compute. reflexivity. Qed.

Lemma C7_positive_limit_witness :
  (pages_loop (always (Response 200 second_page) sample_now) (limit_config 5)
     nd_zeros_sample urljoin_sample 9 (u "b/") 2
     (map record_of ["Alien"; "Brazil"; "Casino"; "Dogville"]%string) empty_world)
  = (Return (map record_of ["Alien"; "Brazil"; "Casino"; "Dogville"; "Eraserhead"]%string),
     mkWorld [Get (u "b/page2/"); SleepJitter 8] None).
Proof.
  destruct (C7_positive_limit_truncates_and_stops
              (always (Response 200 second_page) sample_now) (limit_config 5)
              nd_zeros_sample urljoin_sample 8 (u "b/") 2
              (map record_of ["Alien"; "Brazil"; "Casino"; "Dogville"]%string)
              empty_world 5 second_page
              (mkWorld [Get (u "b/page2/"); SleepJitter 8] None)) as (Hrun & _ & _).
  - reflexivity.
  - lia.
  - simpl. lia.
  - vm_compute. reflexivity.
  - vm_compute. discriminate.
  - vm_compute. discriminate.
  - rewrite Hrun. vm_compute. reflexivity.
Defined.

(** Eight titles on two pages, limit five: the first five are returned. *)
Example eight_titles_limit_five :
  (parse_all_schedule_pages
     (scripted [Response 200 first_page; Response 200 second_page;
                Response 200 second_page] sample_now)
     (limit_config 5) nd_zeros_sample urljoin_sample (u "b/") empty_world).1
  = Return (map record_of ["Alien"; "Brazil"; "Casino"; "Dogville"; "Eraserhead"]%string).
Proof. vm_compute. reflexivity. Qed.

Lemma C8_fallback_witness :
  exists event,
    create_calendar_event default_config nd_zeros_sample sample_now (record_of "Dune")
    = Some event
    /\ ev_begin event = mkdatetime (mkdate 2025 10 15) 19 0 0 0
    /\ ev_end event = mkdatetime (mkdate 2025 10 15) 21 0 0 0.
Proof.
  destruct (C8_fallback_event_and_duration default_config nd_zeros_sample sample_now
              (record_of "Dune")) as [Hfallback _].
  - repeat split; vm_compute; discriminate.
  - intros d. discriminate.
  - apply Hfallback; [reflexivity|reflexivity|].
    intros c Hc. by apply elem_of_nil in Hc.
Defined.

(** C9, on a page: 31 November is left out, 15 October is the earliest. *)
Example nearest_date_on_calendar_page :
  parse_schedule_calendar nd_zeros_sample sample_now calendar_page
  = Some (mkdate 2025 10 15)
  /\ available_dates nd_zeros_sample sample_now
       calendar_widget
     = [mkdate 2025 12 20; mkdate 2025 10 15].
Proof. vm_compute. split; reflexivity. Qed.

Lemma C9_earliest_date_witness :
  mkdate 2025 10 15 ∈ available_dates nd_zeros_sample sample_now
                        calendar_widget
  /\ (forall d, d ∈ available_dates nd_zeros_sample sample_now
                      calendar_widget
                -> date_le (mkdate 2025 10 15) d)
  /\ date_of_link nd_zeros_sample sample_now (day_link "20 декабря" "20")
     = Some (mkdate 2025 12 20)
  /\ date_of_link nd_zeros_sample sample_now (day_link "31 ноября" "31") = None
  /\ length (available_dates nd_zeros_sample sample_now calendar_widget) = 2%nat.
Proof.
  pose proof (C9_nearest_show_date_is_earliest nd_zeros_sample sample_now calendar_page)
    as Hthm.
  cbv zeta in Hthm. destruct Hthm as [_ Hfound].
  destruct (Hfound calendar_widget)
    as (_ & _ & Hbuilt & Hcount & _ & _ & Hmin).
  - vm_compute. reflexivity.
  - assert (Hleast : mkdate 2025 10 15
                       ∈ available_dates nd_zeros_sample sample_now calendar_widget
                     /\ forall d, d ∈ available_dates nd_zeros_sample sample_now
                                        calendar_widget
                                  -> date_le (mkdate 2025 10 15) d).
    { apply Hmin. vm_compute. reflexivity. }
    split; [exact (proj1 Hleast)|]. split; [exact (proj2 Hleast)|]. split; [|split].
    + apply Hbuilt.
      exists (Tag "span" ["YCVqY"%string] [] [Text (u "20")]), 20.
      split; [vm_compute; reflexivity|]. split; [vm_compute; reflexivity|].
      split; [vm_compute; repeat split; discriminate|].
      split; vm_compute; reflexivity.
    + destruct (date_of_link nd_zeros_sample sample_now (day_link "31 ноября" "31"))
        as [d|] eqn:Hd; [|reflexivity].
      apply Hbuilt in Hd as (day_elem & n & Hsel & Hint & Hvalid & Hday & Hmonth).
      vm_compute in Hsel. injection Hsel as <-.
      vm_compute in Hint. injection Hint as <-.
      vm_compute in Hmonth. injection Hmonth as Hm Hy.
      destruct d as [y m dd]. simpl in *. subst.
      destruct Hvalid as (_ & _ & _ & Hle). vm_compute in Hle. by destruct Hle.
    + rewrite Hcount. vm_compute. reflexivity.
Defined.

Lemma C10_sorted_union_witness :
  (enrich (always (Response 200 detail_page) sample_now) default_config nd_zeros_sample
          lower_sample dune empty_world).1
  = Return (mkMovie (title dune) (url dune) [u "10:00"; u "9:30"] [] None)
  /\ str_lt (u "10:00") (u "9:30") = true.
Proof.
  destruct (C10_times_become_sorted_union
              (always (Response 200 detail_page) sample_now) default_config
              nd_zeros_sample lower_sample dune empty_world
              (mkWorld [Get (u "https://www.afisha.ru/movie/dune/"); SleepJitter 12] None)
              [] None [u "10:00"]) as (Hrun & _).
  - reflexivity.
  - vm_compute. by eexists.
  - vm_compute. reflexivity.
  - discriminate.
  - split; [|reflexivity]. rewrite Hrun. vm_compute. reflexivity.
Defined.

(** Further runs. *)
Lemma limit_bound_witness :
  Z.of_nat (length (map record_of ["Alien"; "Brazil"; "Casino"; "Dogville"; "Eraserhead"]%string))
  <= 5.
Proof.
  apply (parse_all_schedule_pages_bounded
           (scripted [Response 200 first_page; Response 200 second_page;
                      Response 200 second_page] sample_now)
           (limit_config 5) nd_zeros_sample urljoin_sample 5 (u "b/") empty_world
           (map record_of ["Alien"; "Brazil"; "Casino"; "Dogville"; "Eraserhead"]%string)
           (mkWorld [Get (u "b/"); SleepJitter 8; Get (u "b/page2/"); SleepJitter 8;
                     SleepJitter 8; Get (u "b/page2/"); SleepJitter 8] None)).
  - reflexivity.
  - lia.
  - vm_compute. reflexivity.
Defined.


Lemma stripped_title_witness :
  strip (u "AB") = u "AB".
Proof.
  apply (listing_titles_are_stripped nd_zeros_sample urljoin_sample short_title_page
           (mkMovie (u "AB") None [] [] None)).
  vm_compute. repeat constructor.
Defined.

(** Runs for the further facts. *)

(** X5, on a run: the document returned is the body of the answer 200. *)
Lemma fetched_document_witness :
  exists h status,
    mkWorld [Get (u "x"); SleepJitter 8] None
    = extend empty_world (h ++ [Get (u "x"); SleepJitter (base_delay_of default_config Page)])
    /\ session_get (always (Response 200 blank_page) sample_now)
                   (history empty_world ++ h) (u "x")
       = Response status blank_page
    /\ is_http_error status = false
    /\ status <> 429 /\ status <> 404 /\ status <> 403.
Proof.
  apply (get_soup_success (always (Response 200 blank_page) sample_now) default_config
           (u "x") MAX_RETRIES Page empty_world blank_page
           (mkWorld [Get (u "x"); SleepJitter 8] None)).
  vm_compute. reflexivity.
Defined.



(** X11, on a page: the blocks of class movie are found by the fifth
    selector. *)
Lemma first_match_witness :
  extract_movie_data_from_schedule nd_zeros_sample urljoin_sample first_page
  = omap (movie_of_container nd_zeros_sample urljoin_sample)
         (select first_page (ByClass "movie")).
Proof.
  apply (extract_first_match_wins nd_zeros_sample urljoin_sample first_page
           [ByClass "movie-item"; ByClass "film-item"; ByClass "schedule-item";
            ByAttr "data-movie"]
           (ByClass "movie")
           [ByClass "film"; ByTag "article"; ByClass "content-item";
            ByClass "list-item"; ByClass "cinema-movie"; ByClass "schedule-movie";
            ByClass "event-item"; ByClass "item"]).
  - reflexivity.
  - intros s' Hs'.
    repeat (apply elem_of_cons in Hs' as [->|Hs']; [vm_compute; reflexivity|]).
    by apply elem_of_nil in Hs'.
  - vm_compute. discriminate.
Defined.

(** X12, on a page: only the link to a movie gives a record. *)
Lemma link_scan_witness :
  extract_movie_data_from_schedule nd_zeros_sample urljoin_sample links_page
  = omap (movie_of_link urljoin_sample)
         (filter (fun l => is_movie_href l.2) (find_all_links links_page))
  /\ map title (extract_movie_data_from_schedule nd_zeros_sample urljoin_sample links_page)
     = [u "Heat"].
Proof.
  destruct (extract_without_containers nd_zeros_sample urljoin_sample links_page)
    as [Hscan _].
  - intros s Hs. unfold movie_selectors in Hs.
    repeat (apply elem_of_cons in Hs as [->|Hs]; [vm_compute; reflexivity|]).
    by apply elem_of_nil in Hs.
  - split; [exact Hscan|]. vm_compute. reflexivity.
Defined.

(** X13, on a page: the record of the sample listing. *)
Lemma record_shape_witness :
  countries (mkMovie (u "Dune 2") None [u "9:30"; u "10:15"] [] None) = []
  /\ NoDup [u "9:30"; u "10:15"]
  /\ Forall (valid_clock nd_zeros_sample) [u "9:30"; u "10:15"].
Proof.
  destruct (extract_record_shape nd_zeros_sample urljoin_sample showtimes_page
              (mkMovie (u "Dune 2") None [u "9:30"; u "10:15"] [] None))
    as (Hcountries & _ & Hdistinct & Hvalid & _).
  - vm_compute. repeat constructor.
  - split; [exact Hcountries|]. split; [exact Hdistinct | exact Hvalid].
Defined.

(** X17, on a movie: the event of Dune begins at 9:30 on the day after the
    clock reading. *)
Lemma event_fields_witness :
  exists event,
    create_calendar_event default_config nd_zeros_sample sample_now dune = Some event
    /\ ev_name event = u "Dune"
    /\ dt_date (ev_begin event) = mkdate 2025 10 15
    /\ dt_hour (ev_begin event) = 9 /\ dt_minute (ev_begin event) = 30.
Proof.
  destruct (create_calendar_event default_config nd_zeros_sample sample_now dune)
    as [event|] eqn:Hevent; [|vm_compute in Hevent; discriminate].
  exists event. split; [reflexivity|].
  destruct (create_calendar_event_fields default_config nd_zeros_sample sample_now dune
              event Hevent) as (Hname & _ & Hdate & _ & _ & _ & _ & Hfirst & _).
  split; [exact Hname|]. split; [exact Hdate|].
  apply (Hfirst (u "9:30") [] 9%N 30%N); vm_compute; reflexivity.
Defined.

(** X19, on a run: two movies without address give two events and no
    request. *)
Lemma without_details_witness :
  exists added h,
    process_movies (always (Response 200 detail_page) sample_now) default_config
      nd_zeros_sample lower_sample 1 2 [record_of "Alien"; record_of "Brazil"] []
      empty_world
    = (Return ([] ++ added), extend empty_world h)
    /\ map ev_name added ≡ₚ [u "Alien"; u "Brazil"]
    /\ count_gets h = 0%nat.
Proof.
  apply (process_movies_without_details
           (always (Response 200 detail_page) sample_now) default_config
           nd_zeros_sample lower_sample [record_of "Alien"; record_of "Brazil"] 1 2 []
           empty_world).
  constructor; [right; vm_compute; reflexivity|].
  constructor; [right; vm_compute; reflexivity|]. constructor.
Defined.

(** X20, on a clock reading. *)
Lemma placeholder_timing_witness :
  timestamp (ev_begin (no_movies_event sample_now)) = timestamp sample_now + one_day
  /\ timestamp (ev_end (no_movies_event sample_now))
     = timestamp sample_now + one_day + two_hours.
Proof.
  destruct (placeholder_events_timing sample_now (Error (u "boom")))
    as (Hbegin & Hend & _).
  - repeat split; vm_compute; discriminate.
  - split; [exact Hbegin | exact Hend].
Defined.

(** X22, on a link: a December label read in October 2025. *)
Lemma december_link_witness :
  year (mkdate 2025 12 20) = 2025 /\ month (mkdate 2025 12 20) = 12.
Proof.
  pose proof (date_of_link_month_and_year nd_zeros_sample sample_now
                (day_link "20 декабря" "20") (mkdate 2025 12 20)) as Hthm.
  cbv zeta in Hthm. destruct Hthm as (_ & _ & Hdecember & _).
  - vm_compute. reflexivity.
  - apply Hdecember; vm_compute; reflexivity.
Defined.


(** X26, on a run: the second page holds no record. *)
Lemma empty_page_witness :
  pages_loop (always (Response 200 blank_page) sample_now) default_config
    nd_zeros_sample urljoin_sample 4 (u "b/") 2 [record_of "Alien"] empty_world
  = (Return [record_of "Alien"], mkWorld [Get (u "b/page2/"); SleepJitter 8] None).
Proof.
  apply (pages_loop_stops_on_empty_page
           (always (Response 200 blank_page) sample_now) default_config
           nd_zeros_sample urljoin_sample 3 (u "b/") 2 [record_of "Alien"] empty_world
           (Some blank_page)).
  - vm_compute. discriminate.
  - vm_compute. reflexivity.
  - vm_compute. reflexivity.
Defined.
